(** * ConfigManager of config.py: configuration store and daily alert log

    The development follows src/config.py.  Python values are an inductive
    type, the dictionary [self.config] is a finite map keyed by strings, and
    the methods of [ConfigManager] are programs of a state-and-exception
    monad over the process state (the object's attributes, the environment,
    the file config.json and the lines printed). *)

From Stdlib Require Import ZArith String Ascii List Floats.PrimFloat.
From stdpp Require Import gmap strings list fin_maps.

#[local] Set Warnings "-register-all".
#[local] Open Scope string_scope.

(** ** Python values *)

(** The values a configuration entry holds: what [json.load] returns and
    [json.dump] accepts.  A string is its sequence of characters, one
    [ascii] per character.  Dictionaries inside values are keyed by
    strings. *)
Inductive value : Type :=
| VNone
| VBool (b : bool)
| VInt (z : Z)
| VFloat (f : float)
| VStr (s : string)
| VList (l : list value)
| VDict (d : gmap string value).

(** [v == s] for a string [s]: only an equal string is equal to it. *)
Definition str_eq (v : value) (s : string) : bool :=
  match v with
  | VStr t => String.eqb t s
  | _ => false
  end.

(** [needle in hay] on two strings. *)
Fixpoint is_substring (needle hay : string) : bool :=
  String.prefix needle hay
  || match hay with
     | EmptyString => false
     | String _ rest => is_substring needle rest
     end.

(** [bool(v)], as the operator [or] of [get] tests it. *)
Definition truthy (v : value) : bool :=
  match v with
  | VNone => false
  | VBool b => b
  | VInt z => negb (Z.eqb z 0)
  | VFloat f => negb (PrimFloat.eqb f 0)
  | VStr s => negb (String.eqb s "")
  | VList l => negb (Nat.eqb (length l) 0)
  | VDict d => negb (Nat.eqb (size d) 0)
  end.

(** [a or b]. *)
Definition py_or (a b : value) : value := if truthy a then a else b.

(** ** The file config.json *)

(** An element of a JSON array at the top of the file, as [dict.update]
    meets it when it unpacks the array into key and value pairs. *)
Inductive element : Type :=
| EPair (k : string) (v : value)   (* ["k", v]: an array of two, headed by a string *)
| EStr (s : string)                (* "...": a pair of characters when it has two *)
| EOther.                          (* an element [dict.update] raises on: a number,
                                      a boolean, null, an array that has not two
                                      elements or is headed by an array or object *)

(** What [json.load] returns for a file that parses.  Inside a top-level
    array, an array of two headed by a number, a boolean or null would make
    a key that is not a string, and an object is unpacked by the order of
    its keys; these two kinds of element are outside this model. *)
Inductive document : Type :=
| DocObject (o : gmap string value)
| DocArray (l : list element)
| DocString (s : string)
| DocScalar.                       (* a number, true, false or null *)

(** The content of an existing file. *)
Inductive content : Type :=
| Unparsable                       (* [open], the decoding or [json.load] raises *)
| Json (d : document).

(** What happens to the file when [save_config] opens and writes it. *)
Inductive write_result : Type :=
| Written                          (* the file now holds the dumped object *)
| OpenFails                        (* [open] raises; the file is untouched *)
| Torn.                            (* the write breaks off after the truncation *)

(** ** Process state, outcomes and the monad *)

Inductive exn : Type :=
| OSError | JSONDecodeError | TypeError | ValueError | AttributeError.

(** The lines the methods print. *)
Inductive line : Type :=
| ReadFailed (e : exn)                    (* 读取配置文件失败 ... 使用默认配置 *)
| SaveFailed (e : exn)                    (* 保存配置文件失败 *)
| EnvFormat (env_key env_val : string).   (* 环境变量 ... 格式错误 *)

Record world : Type := World {
  config : gmap string value;        (* self.config *)
  dingtalk_webhook : value;          (* self.dingtalk_webhook *)
  dingtalk_secret : value;           (* self.dingtalk_secret *)
  environ : gmap string string;      (* os.environ *)
  file : option content;             (* config.json; [None] when it does not exist *)
  stdout : list line                 (* what was printed, oldest first *)
}.

Inductive outcome (A : Type) : Type :=
| Return (a : A)
| Raise (e : exn).
Arguments Return {A} a.
Arguments Raise {A} e.

Definition Py (A : Type) : Type := world → outcome A * world.

#[export] Instance Py_ret : MRet Py := λ A a σ, (Return a, σ).
#[export] Instance Py_bind : MBind Py := λ A B k m σ,
  match m σ with
  | (Return a, σ') => k a σ'
  | (Raise e, σ') => (Raise e, σ')
  end.
#[export] Instance Py_throw : MThrow exn Py := λ A e σ, (Raise e, σ).

(** [try: body except ...: handler], the handler taking the exceptions that
    [catches] accepts. *)
Definition try_except {A} (body : Py A) (catches : exn → bool)
    (handler : exn → Py A) : Py A := λ σ,
  match body σ with
  | (Raise e, σ') => if catches e then handler e σ' else (Raise e, σ')
  | r => r
  end.

Definition any_exception (e : exn) : bool := true.
Definition is_ValueError (e : exn) : bool :=
  match e with ValueError => true | _ => false end.

Definition gets {A} (f : world → A) : Py A := λ σ, (Return (f σ), σ).
Definition modify (f : world → world) : Py unit := λ σ, (Return tt, f σ).

Definition with_config (c : gmap string value) (σ : world) : world :=
  World c (dingtalk_webhook σ) (dingtalk_secret σ) (environ σ) (file σ) (stdout σ).
Definition with_webhook (v : value) (σ : world) : world :=
  World (config σ) v (dingtalk_secret σ) (environ σ) (file σ) (stdout σ).
Definition with_secret (v : value) (σ : world) : world :=
  World (config σ) (dingtalk_webhook σ) v (environ σ) (file σ) (stdout σ).
Definition with_file (f : option content) (σ : world) : world :=
  World (config σ) (dingtalk_webhook σ) (dingtalk_secret σ) (environ σ) f (stdout σ).
Definition with_stdout (o : list line) (σ : world) : world :=
  World (config σ) (dingtalk_webhook σ) (dingtalk_secret σ) (environ σ) (file σ) o.

Definition print (l : line) : Py unit := modify (λ σ, with_stdout (stdout σ ++ [l]) σ).
Definition put_config (c : gmap string value) : Py unit := modify (with_config c).
(** [self.config[key] = v] *)
Definition config_setitem (key : string) (v : value) : Py unit :=
  modify (λ σ, with_config (<[key := v]> (config σ)) σ).

(** The state a program ends in and what it returns or raises. *)
Definition exec {A} (m : Py A) (σ : world) : world := (m σ).2.
Definition result {A} (m : Py A) (σ : world) : outcome A := (m σ).1.

(** ** Dictionary and container operations *)

(** [for key in keys: if key in d: del d[key]] on a dictionary. *)
Fixpoint del_keys (keys : list string) (d : gmap string value) : gmap string value :=
  match keys with
  | [] => d
  | key :: rest => del_keys rest (delete key d)
  end.

Definition element_is (key : string) (e : element) : bool :=
  match e with
  | EStr s => String.eqb s key
  | _ => false
  end.

(** [if key in saved: del saved[key]] on whatever [json.load] returned. *)
Definition del_if_present (key : string) (saved : document) : Py document :=
  match saved with
  | DocObject o => mret (DocObject (delete key o))
  | DocArray l =>
      (* a list takes no string index *)
      if existsb (element_is key) l then mthrow TypeError else mret saved
  | DocString s =>
      (* a string has no item deletion *)
      if is_substring key s then mthrow TypeError else mret saved
  | DocScalar => mthrow TypeError   (* [in] needs a container *)
  end.

Fixpoint strip_loaded (keys : list string) (saved : document) : Py document :=
  match keys with
  | [] => mret saved
  | key :: rest => saved' ← del_if_present key saved; strip_loaded rest saved'
  end.

(** The key and the value [dict.update] takes from an element of a sequence. *)
Definition unpack (e : element) : Py (string * value) :=
  match e with
  | EPair k v => mret (k, v)
  | EStr (String a (String b EmptyString)) =>
      mret (String a EmptyString, VStr (String b EmptyString))
  | EStr _ => mthrow ValueError
  | EOther => mthrow TypeError   (* or ValueError; the handler takes both *)
  end.

Fixpoint update_from_pairs (l : list element) : Py unit :=
  match l with
  | [] => mret tt
  | e :: rest =>
      kv ← unpack e;
      config_setitem kv.1 kv.2;;
      update_from_pairs rest
  end.

(** [self.config.update(saved)] *)
Definition config_update (saved : document) : Py unit :=
  match saved with
  | DocObject o => modify (λ σ, with_config (o ∪ config σ) σ)
  | DocArray l => update_from_pairs l
  | DocString s =>
      (* every element of a string is one character, never a pair *)
      match s with EmptyString => mret tt | _ => mthrow ValueError end
  | DocScalar => mthrow TypeError
  end.

(** [code in container] *)
Definition py_in (code : string) (container : value) : Py bool :=
  match container with
  | VList l => mret (existsb (λ v, str_eq v code) l)
  | VStr s => mret (is_substring code s)
  | VDict d => mret (bool_decide (is_Some (d !! code)))
  | _ => mthrow TypeError
  end.

(** [container.append(code)], the container as it is afterwards.  Values
    have no identity here: the source appends to the stored list object in
    place, so another entry that holds the very same list object would see
    the new element too; such sharing between entries is not represented. *)
Definition py_append (container : value) (code : string) : Py value :=
  match container with
  | VList l => mret (VList (l ++ [VStr code]))
  | _ => mthrow AttributeError
  end.

Fixpoint for_each {A} (l : list A) (body : A → Py unit) : Py unit :=
  match l with
  | [] => mret tt
  | a :: rest => body a;; for_each rest body
  end.

(** ** ConfigManager *)

(** [self.default_config].  Every [load_config] builds it anew and nothing
    else reads it, so the list its copy shares with [self.config] is not
    kept as an object of its own. *)
Definition default_config : gmap string value :=
  <["premium_threshold" := VFloat 30]>
    (<["discount_threshold" := VFloat 40]>
      (<["last_alert_date" := VStr ""]>
        (<["alerted_funds" := VList []]>
          (<["mode" := VStr "ui"]> ∅)))).

Definition sensitive_keys : list string := ["dingtalk_webhook"; "dingtalk_secret"].

Definition env_mapping : list (string * string) :=
  [("PREMIUM_THRESHOLD", "premium_threshold");
   ("DISCOUNT_THRESHOLD", "discount_threshold")].

(** [json.load] on the opened file. *)
Definition json_load (c : content) : Py document :=
  match c with
  | Unparsable => mthrow JSONDecodeError
  | Json d => mret d
  end.

(** [open(CONFIG_FILE, 'w')] and [json.dump] of the object [o].  The file
    is kept as the document a later [json.load] returns: reading back what
    was dumped gives the same keys and values. *)
Definition json_dump (w : write_result) (o : gmap string value) : Py unit :=
  match w with
  | Written => modify (with_file (Some (Json (DocObject o))))
  | OpenFails => mthrow OSError
  | Torn => modify (with_file (Some Unparsable));; mthrow OSError
  end.

Definition save_config (w : write_result) : Py unit :=
  try_except
    (c ← gets config;
     let config_to_save := del_keys sensitive_keys c in
     json_dump w config_to_save)
    any_exception
    (λ e, print (SaveFailed e)).

Section ConfigManager.

(** Python's [float] on a string: the number, or [None] where it raises
    ValueError. *)
Variable py_float : string → option float.

Definition float_of (s : string) : Py float :=
  match py_float s with
  | Some f => mret f
  | None => mthrow ValueError
  end.

(** The body of the loop over [env_mapping]. *)
Definition override_from_env (entry : string * string) : Py unit :=
  let env_key := entry.1 in
  let config_key := entry.2 in
  env ← gets environ;
  match env !! env_key with
  | Some env_val =>
      if negb (String.eqb env_val "") then
        try_except
          (f ← float_of env_val; config_setitem config_key (VFloat f))
          is_ValueError
          (λ _, print (EnvFormat env_key env_val))
      else mret tt
  | None => mret tt
  end.

(** The first part of [load_config]: defaults and the file. *)
Definition load_file (w : write_result) : Py unit :=
  f ← gets file;
  match f with
  | Some c =>
      try_except
        (saved ← json_load c;
         saved' ← strip_loaded sensitive_keys saved;
         put_config default_config;;
         config_update saved')
        any_exception
        (λ e, print (ReadFailed e);; put_config default_config)
  | None => put_config default_config;; save_config w
  end.

Definition load_config (w : write_result) : Py unit :=
  load_file w;;
  for_each env_mapping override_from_env;;
  env ← gets environ;
  modify (with_webhook (VStr (default "" (env !! "DINGTALK_WEBHOOK"))));;
  modify (with_secret (VStr (default "" (env !! "DINGTALK_SECRET")))).

End ConfigManager.

Definition get (key : string) (dflt : value) : Py value :=
  if String.eqb key "dingtalk_webhook" then
    v ← gets dingtalk_webhook; mret (py_or v dflt)
  else if String.eqb key "dingtalk_secret" then
    v ← gets dingtalk_secret; mret (py_or v dflt)
  else
    c ← gets config; mret (default dflt (c !! key)).

Definition set (key : string) (v : value) (w : write_result) : Py unit :=
  (if String.eqb key "dingtalk_webhook" then modify (with_webhook v)
   else if String.eqb key "dingtalk_secret" then modify (with_secret v)
   else config_setitem key v);;
  save_config w.

(** [today] is what [datetime.now().strftime("%Y-%m-%d")] gives at the call. *)
Definition check_reset_daily_alerts (today : string) (w : write_result) : Py bool :=
  last ← gets (λ σ, config σ !! "last_alert_date");
  if negb (from_option (λ v, str_eq v today) false last) then
    config_setitem "last_alert_date" (VStr today);;
    config_setitem "alerted_funds" (VList []);;
    save_config w;;
    mret true
  else mret false.

Definition is_fund_alerted (today code : string) (w : write_result) : Py bool :=
  check_reset_daily_alerts today w;;
  c ← gets config;
  py_in code (default (VList []) (c !! "alerted_funds")).

(** [w] is the write of the reset, [w'] the write after the append. *)
Definition mark_fund_alerted (today code : string) (w w' : write_result) : Py unit :=
  check_reset_daily_alerts today w;;
  c ← gets config;
  let alerted_funds := default (VList []) (c !! "alerted_funds") in
  present ← py_in code alerted_funds;
  if negb present then
    alerted_funds' ← py_append alerted_funds code;
    config_setitem "alerted_funds" alerted_funds';;
    save_config w'
  else mret tt.

(** ** Vocabulary of the properties *)

(** The lines a program prints when run from [σ]. *)
Definition printed {A} (m : Py A) (σ : world) : list line :=
  drop (length (stdout σ)) (stdout (exec m σ)).

(** How many elements of a list equal the string [code]. *)
Fixpoint occurrences (code : string) (l : list value) : nat :=
  match l with
  | [] => 0
  | v :: rest => (if str_eq v code then 1 else 0) + occurrences code rest
  end.

(** Whether the file holds [key] as a key of its object.  A file left by a
    torn write is a prefix of the dump of [config_to_save]. *)
Definition file_has_key (f : option content) (key : string) : Prop :=
  match f with
  | Some (Json (DocObject o)) => is_Some (o !! key)
  | Some (Json (DocArray l)) => ∃ v, EPair key v ∈ l
  | _ => False
  end.

(** A call of a caller on the one instance, with the results of the writes
    it may lead to. *)
Inductive call : Type :=
| CallLoad (w : write_result)
| CallSave (w : write_result)
| CallGet (key : string) (dflt : value)
| CallSet (key : string) (v : value) (w : write_result)
| CallCheckReset (today : string) (w : write_result)
| CallIsAlerted (today code : string) (w : write_result)
| CallMark (today code : string) (w w' : write_result).

(** The environment layer, stated apart from the loop of [load_config]: a
    threshold variable that is set, not empty and accepted by [float]
    defines its key. *)
Definition env_value (py_float : string → option float)
    (env : gmap string string) (env_key : string) : option value :=
  s ← env !! env_key;
  if String.eqb s "" then None else VFloat <$> py_float s.

Definition env_layer (py_float : string → option float)
    (env : gmap string string) : gmap string value :=
  from_option (λ v, {["discount_threshold" := v]}) ∅
    (env_value py_float env "DISCOUNT_THRESHOLD")
  ∪ from_option (λ v, {["premium_threshold" := v]}) ∅
      (env_value py_float env "PREMIUM_THRESHOLD").

(** A stand-in for [float] in the examples: the numerals they use. *)
Definition sample_float (s : string) : option float :=
  if String.eqb s "25.5" then Some 25.5%float
  else if String.eqb s "35" then Some 35%float
  else None.

(** A process that has just been started, before [load_config]. *)
Definition fresh (env : gmap string string) (f : option content) : world :=
  World ∅ VNone VNone env f [].

(** The instance after [load_config] in a process with the environment
    [env] and the file [f], every write succeeding. *)
Definition started (env : gmap string string) (f : option content) : world :=
  exec (load_config sample_float Written) (fresh env f).

Section Calls.

Variable py_float : string → option float.

(** The state after a call; an exception of [is_fund_alerted] or
    [mark_fund_alerted] goes to the caller, the instance stays as it is. *)
Definition perform (c : call) : world → world :=
  match c with
  | CallLoad w => exec (load_config py_float w)
  | CallSave w => exec (save_config w)
  | CallGet key dflt => exec (get key dflt)
  | CallSet key v w => exec (set key v w)
  | CallCheckReset today w => exec (check_reset_daily_alerts today w)
  | CallIsAlerted today code w => exec (is_fund_alerted today code w)
  | CallMark today code w w' => exec (mark_fund_alerted today code w w')
  end.

Definition run (cs : list call) (σ : world) : world := foldl (λ σ c, perform c σ) σ cs.

End Calls.

(** ** The effect of the methods in closed form *)

(** The state [save_config] leaves, by the result of the write. *)
Definition saved (w : write_result) (σ : world) : world :=
  match w with
  | Written => with_file (Some (Json (DocObject (del_keys sensitive_keys (config σ))))) σ
  | OpenFails => with_stdout (stdout σ ++ [SaveFailed OSError]) σ
  | Torn => with_stdout (stdout σ ++ [SaveFailed OSError]) (with_file (Some Unparsable) σ)
  end.

(** Whether the stored date differs from [today]. *)
Definition stale (today : string) (c : gmap string value) : bool :=
  negb (from_option (λ v, str_eq v today) false (c !! "last_alert_date")).

(** The mapping after the clear and the advance of the date. *)
Definition reset (today : string) (c : gmap string value) : gmap string value :=
  <["alerted_funds" := VList []]> (<["last_alert_date" := VStr today]> c).

(** The state [override_from_env] leaves. *)
Definition overridden (py_float : string → option float) (entry : string * string)
    (σ : world) : world :=
  match environ σ !! entry.1 with
  | Some s =>
      if String.eqb s "" then σ
      else match py_float s with
           | Some f => with_config (<[entry.2 := VFloat f]> (config σ)) σ
           | None => with_stdout (stdout σ ++ [EnvFormat entry.1 s]) σ
           end
  | None => σ
  end.

(** Every run of [m] takes a state to one that [R] relates to it. *)
Definition steps (R : relation world) {A} (m : Py A) : Prop :=
  ∀ σ, R σ (exec m σ).

(** The file is as it was, or it was written without the sensitive keys. *)
Definition file_kept_or_clean (σ σ' : world) : Prop :=
  file σ' = file σ
  ∨ ∀ key, key ∈ sensitive_keys → ¬ file_has_key (file σ') key.

(** The mapping holds none of the sensitive keys. *)
Definition config_clean (σ : world) : Prop :=
  ∀ key, key ∈ sensitive_keys → config σ !! key = None.

(** The file is not a JSON array. *)
Definition not_array (f : option content) : Prop :=
  match f with
  | Some (Json (DocArray _)) => False
  | _ => True
  end.

(** The line [override_from_env] prints for a variable, if any. *)
Definition env_line (py_float : string → option float)
    (env : gmap string string) (env_key : string) : list line :=
  match env !! env_key with
  | Some s =>
      if String.eqb s "" then []
      else match py_float s with
           | Some _ => []
           | None => [EnvFormat env_key s]
           end
  | None => []
  end.

(** The state the last two assignments of [load_config] leave. *)
Definition credentials_from_env (σ : world) : world :=
  with_secret (VStr (default "" (environ σ !! "DINGTALK_SECRET")))
    (with_webhook (VStr (default "" (environ σ !! "DINGTALK_WEBHOOK"))) σ).

(** The environment is as it was. *)
Definition environ_kept (σ σ' : world) : Prop := environ σ' = environ σ.

(** More lines were printed, none of them about the environment. *)
Definition printed_no_env_line (σ σ' : world) : Prop :=
  ∃ ls : list line, stdout σ' = (stdout σ ++ ls)%list ∧ ∀ k s, EnvFormat k s ∉ ls.

(** ** Further vocabulary *)

(** The block [load_config] tries on a file that exists. *)
Definition read_file (c : content) : Py unit :=
  saved ← json_load c;
  saved' ← strip_loaded sensitive_keys saved;
  put_config default_config;;
  config_update saved'.

(** What [get] returns, read off the attributes. *)
Definition got (key : string) (dflt : value) (σ : world) : value :=
  if String.eqb key "dingtalk_webhook" then py_or (dingtalk_webhook σ) dflt
  else if String.eqb key "dingtalk_secret" then py_or (dingtalk_secret σ) dflt
  else default dflt (config σ !! key).

(** The file holds what a save of the present mapping writes. *)
Definition in_sync (σ : world) : Prop :=
  file σ = Some (Json (DocObject (del_keys sensitive_keys (config σ)))).

Definition succeeds (w : write_result) : bool :=
  match w with Written => true | _ => false end.

(** A call other than [load_config] all of whose writes succeed. *)
Definition writes_through (c : call) : bool :=
  match c with
  | CallLoad _ => false
  | CallSave w => succeeds w
  | CallGet _ _ => true
  | CallSet _ _ w => succeeds w
  | CallCheckReset _ w => succeeds w
  | CallIsAlerted _ _ w => succeeds w
  | CallMark _ _ w w' => succeeds w && succeeds w'
  end.

(** The two keys of the daily bookkeeping. *)
Definition alert_keys : list string := ["last_alert_date"; "alerted_funds"].

(** A value that is no container: [in] raises on it. *)
Definition is_scalar (v : value) : bool :=
  match v with
  | VNone | VBool _ | VInt _ | VFloat _ => true
  | _ => false
  end.

(** The file is as it was. *)
Definition file_kept (σ σ' : world) : Prop := file σ' = file σ.

(** Nothing more was printed. *)
Definition stdout_kept (σ σ' : world) : Prop := stdout σ' = stdout σ.

(** Only the mapping may have changed. *)
Definition only_config_changed (σ σ' : world) : Prop :=
  σ' = with_config (config σ') σ.

(** The two states agree on what the instance holds in memory and on the
    environment. *)
Definition same_memory (σ σ' : world) : Prop :=
  config σ = config σ'
  ∧ dingtalk_webhook σ = dingtalk_webhook σ'
  ∧ dingtalk_secret σ = dingtalk_secret σ'
  ∧ environ σ = environ σ'.

(** What the file contributes to the mapping when it is not a JSON array:
    the entries of its object other than the two sensitive keys, and nothing
    when it is absent, does not parse, or holds a string, a number, a boolean
    or null. *)
Definition disk_layer (f : option content) : gmap string value :=
  match f with
  | Some (Json (DocObject o)) => del_keys sensitive_keys o
  | _ => ∅
  end.

(** A value that holds no list: a number, a boolean, [None] or a string. *)
Definition is_atom (v : value) : bool :=
  match v with
  | VList _ | VDict _ => false
  | _ => true
  end.

(** * Properties *)

(** ** The methods as equations *)

(** Settles a decidable statement about concrete data by evaluation. *)
Ltac decide_it := apply (bool_decide_unpack _); vm_compute; exact I.

Ltac py_unfold :=
  unfold exec, result, printed, mbind, mret, mthrow, Py_bind, Py_ret, Py_throw,
    try_except, gets, modify, print, put_config, config_setitem in *.

Lemma save_config_eq w σ : save_config w σ = (Return tt, saved w σ).
Proof. destruct w; reflexivity. Qed.

Lemma saved_config w σ : config (saved w σ) = config σ.
Proof. by destruct w. Qed.

Lemma saved_environ w σ : environ (saved w σ) = environ σ.
Proof. by destruct w. Qed.

Lemma check_reset_eq today w σ :
  check_reset_daily_alerts today w σ =
    if stale today (config σ)
    then (Return true, saved w (with_config (reset today (config σ)) σ))
    else (Return false, σ).
Proof.
  unfold check_reset_daily_alerts, stale. py_unfold. simpl.
  destruct (negb _); [|done].
  by rewrite save_config_eq.
Qed.

Lemma stale_spec today c :
  stale today c = false ↔ c !! "last_alert_date" = Some (VStr today).
Proof.
  unfold stale. destruct (c !! "last_alert_date") as [v|]; simpl; [|done].
  destruct v; simpl; try done.
  rewrite negb_false_iff, String.eqb_eq. split; congruence.
Qed.

Lemma stale_reset today c : stale today (reset today c) = false.
Proof.
  apply stale_spec. unfold reset.
  rewrite lookup_insert_ne by done. apply lookup_insert_eq.
Qed.

Lemma reset_alerted_funds today c : reset today c !! "alerted_funds" = Some (VList []).
Proof. apply lookup_insert_eq. Qed.

Lemma reset_last_alert_date today c :
  reset today c !! "last_alert_date" = Some (VStr today).
Proof. unfold reset. rewrite lookup_insert_ne by done. apply lookup_insert_eq. Qed.

Lemma occurrences_app code l l' :
  occurrences code (l ++ l') = occurrences code l + occurrences code l'.
Proof. induction l as [|v l IH]; simpl; [done|]. rewrite IH. lia. Qed.

Lemma existsb_occurrences code l :
  existsb (λ v, str_eq v code) l = negb (Nat.eqb (occurrences code l) 0).
Proof.
  induction l as [|v l IH]; simpl; [done|].
  rewrite IH. by destruct (str_eq v code).
Qed.

(** [mark_fund_alerted] when the date is current and the entry is a list. *)
Lemma mark_current_list today code w w' σ l :
  stale today (config σ) = false →
  default (VList []) (config σ !! "alerted_funds") = VList l →
  mark_fund_alerted today code w w' σ =
    if existsb (λ v, str_eq v code) l then (Return tt, σ)
    else (Return tt,
          saved w' (with_config (<["alerted_funds" := VList (l ++ [VStr code])]> (config σ)) σ)).
Proof.
  intros Hs Hl. unfold mark_fund_alerted.
  unfold mbind at 1, Py_bind. rewrite check_reset_eq, Hs.
  py_unfold. simpl. rewrite Hl. simpl.
  destruct (existsb _ l); simpl; [done|].
  by rewrite save_config_eq.
Qed.

(** [mark_fund_alerted] on a day that has not been seen yet. *)
Lemma mark_stale today code w w' σ :
  stale today (config σ) = true →
  mark_fund_alerted today code w w' σ =
    (Return tt,
     let σ' := saved w (with_config (reset today (config σ)) σ) in
     saved w' (with_config (<["alerted_funds" := VList [VStr code]]> (config σ')) σ')).
Proof.
  intros Hs. unfold mark_fund_alerted.
  unfold mbind at 1, Py_bind. rewrite check_reset_eq, Hs.
  py_unfold. simpl. rewrite saved_config. simpl.
  rewrite reset_alerted_funds. simpl.
  by rewrite save_config_eq, saved_config.
Qed.

(** After [mark_fund_alerted] the stored date is the day of the call,
    whether the call returned or raised. *)
Lemma mark_advances_date today code w w' σ :
  config (exec (mark_fund_alerted today code w w') σ) !! "last_alert_date"
  = Some (VStr today).
Proof.
  unfold exec, mark_fund_alerted.
  unfold mbind at 1, Py_bind. rewrite check_reset_eq.
  destruct (stale today (config σ)) eqn:Hs.
  - py_unfold. simpl. rewrite saved_config. simpl.
    rewrite reset_alerted_funds. simpl.
    rewrite save_config_eq. simpl. rewrite saved_config. simpl.
    rewrite lookup_insert_ne by done. rewrite saved_config. simpl.
    apply reset_last_alert_date.
  - apply stale_spec in Hs. py_unfold. simpl.
    destruct (default (VList []) (config σ !! "alerted_funds")) as [| | | |s|l|d];
      simpl; try done.
    + by destruct (is_substring code s).
    + destruct (existsb _ l); simpl; [done|].
      rewrite save_config_eq. simpl. rewrite saved_config. simpl.
      by rewrite lookup_insert_ne.
    + by case_bool_decide.
Qed.

(** Asking changes the state as the reset alone does. *)
Lemma is_fund_alerted_exec today code w σ :
  exec (is_fund_alerted today code w) σ = exec (check_reset_daily_alerts today w) σ.
Proof.
  unfold exec, is_fund_alerted. unfold mbind at 1, Py_bind.
  destruct (check_reset_daily_alerts today w σ) as [[b|e] σ1]; simpl; [|done].
  py_unfold.
  by destruct (default (VList []) (config σ1 !! "alerted_funds"));
    simpl; try case_bool_decide.
Qed.

(** Marking changes the state as the reset does, and then either not at
    all or by one assignment to [alerted_funds] and a save. *)
Lemma mark_fund_alerted_exec today code w w' σ :
  let σ1 := exec (check_reset_daily_alerts today w) σ in
  exec (mark_fund_alerted today code w w') σ = σ1
  ∨ ∃ v, exec (mark_fund_alerted today code w w') σ
         = saved w' (with_config (<["alerted_funds" := v]> (config σ1)) σ1).
Proof.
  intros σ1. subst σ1. unfold mark_fund_alerted. py_unfold.
  destruct (check_reset_daily_alerts today w σ) as [[b|e] σ']; simpl; [|by left].
  destruct (default (VList []) (config σ' !! "alerted_funds")) as [| | | |s|l|d];
    simpl; try by left.
  - left. by destruct (is_substring code s).
  - destruct (existsb _ l); simpl; [by left|].
    right. eexists. by rewrite save_config_eq.
  - left. by case_bool_decide.
Qed.

(** ** Daily reset *)

(** C2: with the date fixed, the second of two calls of
    [check_reset_daily_alerts] returns false and leaves the whole state as
    the first left it; the first returns true exactly when the stored
    [last_alert_date] is not today's string, and then it has cleared
    [alerted_funds] and advanced the date; otherwise it returns false and
    changes nothing. *)
Theorem check_reset_twice (today : string) (w w' : write_result) (σ : world) :
  let σ1 := exec (check_reset_daily_alerts today w) σ in
  check_reset_daily_alerts today w' σ1 = (Return false, σ1)
  ∧ (result (check_reset_daily_alerts today w) σ = Return true
     ↔ config σ !! "last_alert_date" ≠ Some (VStr today))
  ∧ (result (check_reset_daily_alerts today w) σ = Return true →
     config σ1 = <["alerted_funds" := VList []]>
                   (<["last_alert_date" := VStr today]> (config σ)))
  ∧ (result (check_reset_daily_alerts today w) σ = Return false
     ↔ config σ !! "last_alert_date" = Some (VStr today))
  ∧ (result (check_reset_daily_alerts today w) σ = Return false → σ1 = σ).
Proof.
  unfold exec, result. rewrite !check_reset_eq.
  destruct (stale today (config σ)) eqn:Hs; simpl.
  - rewrite !saved_config. simpl. rewrite stale_reset.
    assert (config σ !! "last_alert_date" ≠ Some (VStr today)) as Hne.
    { intros H. apply stale_spec in H. congruence. }
    repeat split; done.
  - rewrite Hs. apply stale_spec in Hs.
    repeat split; done.
Qed.

(** ** Marking and asking *)

(** C3, as amended: when the stored date is not today's, or [alerted_funds]
    is missing, or it is a list that holds [code] at most once, two calls of
    [mark_fund_alerted] return and leave a list with exactly one occurrence
    of [code]; the second call changes nothing. *)
Theorem mark_twice_once (today code : string) (w1 w1' w2 w2' : write_result)
    (σ : world) :
  (config σ !! "last_alert_date" ≠ Some (VStr today)
   ∨ config σ !! "alerted_funds" = None
   ∨ ∃ l, config σ !! "alerted_funds" = Some (VList l) ∧ (occurrences code l ≤ 1)%nat) →
  let σ1 := exec (mark_fund_alerted today code w1 w1') σ in
  let σ2 := exec (mark_fund_alerted today code w2 w2') σ1 in
  result (mark_fund_alerted today code w1 w1') σ = Return tt
  ∧ result (mark_fund_alerted today code w2 w2') σ1 = Return tt
  ∧ (∃ l, config σ2 !! "alerted_funds" = Some (VList l) ∧ occurrences code l = 1)
  ∧ σ2 = σ1.
Proof.
  intros Hpre σ1.
  (* the first call returns and leaves [code] once, under today's date *)
  assert (result (mark_fund_alerted today code w1 w1') σ = Return tt
          ∧ stale today (config σ1) = false
          ∧ ∃ l, config σ1 !! "alerted_funds" = Some (VList l)
                 ∧ occurrences code l = 1) as (Hr & Hs1 & l1 & Hl1 & Hocc).
  { subst σ1. unfold exec, result.
    destruct (stale today (config σ)) eqn:Hs.
    - rewrite mark_stale by done. simpl. rewrite !saved_config. simpl.
      split; [done|]. split.
      + apply stale_spec. rewrite lookup_insert_ne by done.
        apply stale_spec, stale_reset.
      + exists [VStr code]. rewrite lookup_insert_eq. simpl.
        by rewrite String.eqb_refl.
    - assert (∃ l, default (VList []) (config σ !! "alerted_funds") = VList l
                   ∧ (occurrences code l ≤ 1)%nat) as (l & Hl & Hle).
      { destruct Hpre as [Hne | [Hnone | (l & Hl & Hle)]].
        - apply stale_spec in Hs. done.
        - exists []. rewrite Hnone. simpl. split; [done|lia].
        - exists l. rewrite Hl. done. }
      rewrite (mark_current_list _ _ _ _ _ l) by done.
      rewrite existsb_occurrences.
      destruct (occurrences code l) as [|[|n]] eqn:Ho; simpl; [| |lia].
      + rewrite saved_config. simpl. split; [done|]. split.
        * apply stale_spec. rewrite lookup_insert_ne by done. by apply stale_spec.
        * exists (l ++ [VStr code])%list. rewrite lookup_insert_eq. split; [done|].
          rewrite occurrences_app, Ho. simpl. by rewrite String.eqb_refl.
      + split; [done|]. split; [done|]. exists l. split; [|done].
        destruct (config σ !! "alerted_funds") as [v|] eqn:Hv; simpl in Hl.
        * by subst v.
        * inversion Hl. subst l. done. }
  intros σ2. subst σ2. unfold exec, result.
  rewrite (mark_current_list today code w2 w2' σ1 l1); [|done|by rewrite Hl1].
  rewrite existsb_occurrences, Hocc. simpl.
  repeat split; try done. by exists l1.
Qed.

(** C4: once [mark_fund_alerted code] has been called on one date, whether
    it returned or raised, [is_fund_alerted code] on any other date returns
    false, and it leaves [alerted_funds] empty under the new date: the reset
    inside it has cleared the list before the membership test. *)
Theorem alert_forgotten_on_another_date (d1 d2 code : string)
    (w1 w1' w2 : write_result) (σ : world) :
  d1 ≠ d2 →
  let σ1 := exec (mark_fund_alerted d1 code w1 w1') σ in
  result (is_fund_alerted d2 code w2) σ1 = Return false
  ∧ config (exec (is_fund_alerted d2 code w2) σ1) !! "alerted_funds" = Some (VList [])
  ∧ config (exec (is_fund_alerted d2 code w2) σ1) !! "last_alert_date"
    = Some (VStr d2).
Proof.
  intros Hd σ1. pose proof (mark_advances_date d1 code w1 w1' σ) as Hdate.
  fold σ1 in Hdate.
  assert (stale d2 (config σ1) = true) as Hs.
  { unfold stale. rewrite Hdate. simpl.
    apply negb_true_iff, String.eqb_neq. done. }
  split.
  - unfold result, is_fund_alerted.
    unfold mbind at 1, Py_bind. rewrite check_reset_eq, Hs.
    py_unfold. simpl. rewrite saved_config. simpl.
    by rewrite reset_alerted_funds.
  - rewrite is_fund_alerted_exec. unfold exec. rewrite check_reset_eq, Hs. simpl.
    rewrite saved_config. simpl.
    split; [apply reset_alerted_funds|apply reset_last_alert_date].
Qed.

(** ** A small logic of steps *)

Section Steps.

Context (R : relation world) `{!Reflexive R, !Transitive R}.

Lemma steps_ret {A} (a : A) : steps R (mret a).
Proof. intros σ. apply reflexivity. Qed.

Lemma steps_throw {A} (e : exn) : steps R (mthrow (A:=A) e).
Proof. intros σ. apply reflexivity. Qed.

Lemma steps_gets {A} (f : world → A) : steps R (gets f).
Proof. intros σ. apply reflexivity. Qed.

Lemma steps_modify (f : world → world) : (∀ σ, R σ (f σ)) → steps R (modify f).
Proof. intros Hf σ. apply Hf. Qed.

Lemma steps_bind {A B} (m : Py A) (k : A → Py B) :
  steps R m → (∀ a, steps R (k a)) → steps R (m ≫= k).
Proof.
  intros Hm Hk σ. specialize (Hm σ). unfold exec, mbind, Py_bind in *.
  destruct (m σ) as [[a|e] σ']; simpl in *; [|done].
  etrans; [exact Hm|]. apply Hk.
Qed.

Lemma steps_try {A} (body : Py A) catches handler :
  steps R body → (∀ e, steps R (handler e)) →
  steps R (try_except body catches handler).
Proof.
  intros Hm Hh σ. specialize (Hm σ). unfold exec, try_except in *.
  destruct (body σ) as [[a|e] σ']; simpl in *; [done|].
  destruct (catches e); [|done].
  etrans; [exact Hm|]. apply Hh.
Qed.

Lemma steps_for_each {A} (l : list A) (body : A → Py unit) :
  (∀ a, steps R (body a)) → steps R (for_each l body).
Proof.
  intros Hb. induction l as [|a l IH]; simpl.
  - apply steps_ret.
  - apply steps_bind; [apply Hb|]. intros _. apply IH.
Qed.

End Steps.

(** [apply] that also finds the preorder among the hypotheses. *)
Tactic Notation "sapply" constr(l) := apply l; try typeclasses eauto.

(** Breaks a program into its primitives; what is left are the goals for
    [save_config] and for the changes of the state. *)
Ltac steps_split :=
  repeat (intros; match goal with
    | |- steps _ (mret _) => sapply steps_ret
    | |- steps _ (mthrow _) => sapply steps_throw
    | |- steps _ (gets _) => sapply steps_gets
    | |- steps _ (mbind _ _) => sapply steps_bind
    | |- steps _ (try_except _ _ _) => sapply steps_try
    | |- steps _ (for_each _ _) => sapply steps_for_each
    | |- steps _ (if ?b then _ else _) => destruct b
    | |- steps _ (match ?x with _ => _ end) => destruct x
    | |- steps _ (let _ := _ in _) => cbv zeta
    end).

(** ** Relations that every method respects *)

(** A preorder on states that [save_config] respects, and that holds
    between a state and the same state with another mapping, other
    credentials or one more line printed, holds across every method. *)
Section Respect.

Context (R : relation world) `{!Reflexive R, !Transitive R}.
Hypothesis R_save : ∀ w, steps R (save_config w).
Hypothesis R_config : ∀ c σ, R σ (with_config c σ).
Hypothesis R_webhook : ∀ v σ, R σ (with_webhook v σ).
Hypothesis R_secret : ∀ v σ, R σ (with_secret v σ).
Hypothesis R_read_failed : ∀ e σ, R σ (with_stdout (stdout σ ++ [ReadFailed e]) σ).
Hypothesis R_env_format : ∀ k s σ, R σ (with_stdout (stdout σ ++ [EnvFormat k s]) σ).

Variable py_float : string → option float.

Ltac respect :=
  steps_split; intros;
  try first
    [ apply R_save
    | cbv delta [print put_config config_setitem]; sapply steps_modify; intros ?;
      first [ apply R_config | apply R_webhook | apply R_secret
            | apply R_read_failed | apply R_env_format ] ].

Lemma respect_strip_loaded keys saved : steps R (strip_loaded keys saved).
Proof.
  revert saved. induction keys as [|key keys IH]; intros saved; simpl.
  - sapply steps_ret.
  - sapply steps_bind; [|apply IH].
    unfold del_if_present. respect.
Qed.

Lemma respect_update_from_pairs l : steps R (update_from_pairs l).
Proof.
  induction l as [|e l IH]; simpl.
  - sapply steps_ret.
  - sapply steps_bind.
    + unfold unpack. destruct e as [k v|s|]; [respect| |respect].
      destruct s as [|a [|b [|c s]]]; respect.
    + intros kv. sapply steps_bind; [respect|]. intros _. apply IH.
Qed.

Lemma respect_load_file w : steps R (load_file w).
Proof.
  unfold load_file.
  sapply steps_bind; [respect|]. intros [c|]; [|respect].
  sapply steps_try; [|respect].
  sapply steps_bind; [unfold json_load; respect|]. intros saved.
  sapply steps_bind; [apply respect_strip_loaded|]. intros saved'.
  sapply steps_bind; [respect|]. intros _.
  unfold config_update. destruct saved'; [respect| |respect|respect].
  apply respect_update_from_pairs.
Qed.

Lemma respect_load_config w : steps R (load_config py_float w).
Proof.
  unfold load_config. sapply steps_bind; [apply respect_load_file|].
  intros _. sapply steps_bind.
  { unfold override_from_env, float_of. respect. }
  respect.
Qed.

Lemma respect_get key dflt : steps R (get key dflt).
Proof. unfold get. respect. Qed.

Lemma respect_set key v w : steps R (set key v w).
Proof. unfold set. respect. Qed.

Lemma respect_check_reset today w : steps R (check_reset_daily_alerts today w).
Proof. unfold check_reset_daily_alerts. respect. Qed.

Lemma respect_is_fund_alerted today code w : steps R (is_fund_alerted today code w).
Proof.
  unfold is_fund_alerted. sapply steps_bind; [apply respect_check_reset|].
  intros _. unfold py_in. respect.
Qed.

Lemma respect_mark_fund_alerted today code w w' :
  steps R (mark_fund_alerted today code w w').
Proof.
  unfold mark_fund_alerted. sapply steps_bind; [apply respect_check_reset|].
  intros _. unfold py_in, py_append. respect.
Qed.

Lemma respect_perform c σ : R σ (perform py_float c σ).
Proof.
  destruct c; simpl.
  - apply respect_load_config.
  - apply R_save.
  - apply respect_get.
  - apply respect_set.
  - apply respect_check_reset.
  - apply respect_is_fund_alerted.
  - apply respect_mark_fund_alerted.
Qed.

Lemma respect_run cs σ : R σ (run py_float cs σ).
Proof.
  revert σ. induction cs as [|c cs IH]; intros σ; simpl.
  - apply reflexivity.
  - etrans; [apply respect_perform|apply IH].
Qed.

End Respect.

(** ** What is written to the file *)

#[local] Instance file_kept_or_clean_refl : Reflexive file_kept_or_clean.
Proof. intros σ. by left. Qed.

#[local] Instance file_kept_or_clean_trans : Transitive file_kept_or_clean.
Proof.
  intros σ1 σ2 σ3 [H12|H12] [H23|H23].
  - left. congruence.
  - by right.
  - right. by rewrite H23.
  - by right.
Qed.

Lemma lookup_del_keys keys (d : gmap string value) key :
  del_keys keys d !! key = if decide (key ∈ keys) then None else d !! key.
Proof.
  revert d. induction keys as [|k keys IH]; intros d; simpl.
  - done.
  - rewrite IH. destruct (decide (key = k)) as [->|Hne].
    + rewrite lookup_delete_eq.
      rewrite (decide_True (P := k ∈ k :: keys)) by (apply elem_of_cons; by left).
      by destruct (decide (k ∈ keys)).
    + rewrite lookup_delete_ne by done.
      destruct (decide (key ∈ keys)) as [Hin|Hin].
      * by rewrite (decide_True (P := key ∈ k :: keys))
          by (apply elem_of_cons; by right).
      * by rewrite (decide_False (P := key ∈ k :: keys))
          by (by apply not_elem_of_cons).
Qed.

#[local] Arguments del_keys : simpl never.

Lemma save_config_file_kept_or_clean w : steps file_kept_or_clean (save_config w).
Proof.
  intros σ. unfold exec. rewrite save_config_eq. simpl.
  destruct w; simpl.
  - right. intros key Hkey. simpl.
    rewrite lookup_del_keys, decide_True by done. by intros [? ?].
  - by left.
  - right. intros key _. simpl. tauto.
Qed.

(** C1: after any sequence of calls (load, save, get, set, the daily reset,
    asking and marking) from any state, the file is either the one the
    sequence started with or one that holds neither [dingtalk_webhook] nor
    [dingtalk_secret] as a key; and a save that succeeds always leaves a file
    without them.  The keys and values given to [set] are arbitrary. *)
Theorem saved_file_has_no_credentials (py_float : string → option float)
    (cs : list call) (σ : world) :
  (file (run py_float cs σ) = file σ
   ∨ (¬ file_has_key (file (run py_float cs σ)) "dingtalk_webhook"
      ∧ ¬ file_has_key (file (run py_float cs σ)) "dingtalk_secret"))
  ∧ (¬ file_has_key (file (exec (save_config Written) σ)) "dingtalk_webhook"
     ∧ ¬ file_has_key (file (exec (save_config Written) σ)) "dingtalk_secret").
Proof.
  split.
  - assert (file_kept_or_clean σ (run py_float cs σ)) as [Hkept|Hclean].
    { apply respect_run; try typeclasses eauto; try (intros; by left).
      apply save_config_file_kept_or_clean. }
    + by left.
    + right. split; apply Hclean; set_solver.
  - unfold exec. rewrite save_config_eq. simpl.
    rewrite !lookup_del_keys.
    split; rewrite decide_True by set_solver; by intros [? ?].
Qed.

(** ** Loading *)

#[local] Instance environ_kept_refl : Reflexive environ_kept.
Proof. by intros σ. Qed.

#[local] Instance environ_kept_trans : Transitive environ_kept.
Proof. unfold environ_kept. intros σ1 σ2 σ3 H12 H23. congruence. Qed.

#[local] Instance printed_no_env_line_refl : Reflexive printed_no_env_line.
Proof.
  intros σ. exists []. split; [by rewrite app_nil_r|].
  intros k s Hin. by apply elem_of_nil in Hin.
Qed.

#[local] Instance printed_no_env_line_trans : Transitive printed_no_env_line.
Proof.
  intros σ1 σ2 σ3 (l1 & H1 & Hn1) (l2 & H2 & Hn2). exists (l1 ++ l2)%list.
  split; [by rewrite H2, H1, app_assoc|].
  intros k s [?|?]%elem_of_app; [by eapply Hn1|by eapply Hn2].
Qed.

Lemma load_file_environ w σ : environ (exec (load_file w) σ) = environ σ.
Proof.
  apply (respect_load_file environ_kept); try done.
  intros w' σ'. unfold exec, environ_kept. rewrite save_config_eq. apply saved_environ.
Qed.

Lemma printed_no_env_line_same σ σ' : stdout σ' = stdout σ → printed_no_env_line σ σ'.
Proof.
  intros Hs. exists []. split; [by rewrite app_nil_r|].
  intros k s Hin. by apply elem_of_nil in Hin.
Qed.

Lemma printed_no_env_line_one σ σ' l :
  stdout σ' = (stdout σ ++ [l])%list → (∀ k s, l ≠ EnvFormat k s) →
  printed_no_env_line σ σ'.
Proof.
  intros Hs Hl. exists [l]. split; [done|].
  intros k s Hin. apply list_elem_of_singleton in Hin. by eapply Hl.
Qed.

Lemma load_file_printed w σ :
  stdout (exec (load_file w) σ) = (stdout σ ++ printed (load_file w) σ)%list
  ∧ ∀ k s, EnvFormat k s ∉ printed (load_file w) σ.
Proof.
  assert (printed_no_env_line σ (exec (load_file w) σ)) as (ls & Hls & Hno).
  { apply (respect_load_file printed_no_env_line).
    - intros w' σ'. unfold exec. rewrite save_config_eq.
      destruct w'; simpl.
      + by apply printed_no_env_line_same.
      + by eapply printed_no_env_line_one.
      + by eapply printed_no_env_line_one.
    - intros c σ'. by apply printed_no_env_line_same.
    - intros e σ'. by eapply printed_no_env_line_one. }
  unfold printed. rewrite Hls, drop_app_length. done.
Qed.

Lemma load_file_returns w σ : result (load_file w) σ = Return tt.
Proof.
  unfold result, load_file. py_unfold. simpl.
  destruct (file σ) as [c|]; simpl.
  - match goal with |- context [match ?b with _ => _ end] =>
      destruct b as [[[]|e] σ'] end; done.
  - by rewrite save_config_eq.
Qed.

Lemma load_file_absent w σ :
  file σ = None →
  exec (load_file w) σ = saved w (with_config default_config σ).
Proof.
  intros Hf. unfold exec, load_file. py_unfold. simpl. rewrite Hf.
  by rewrite save_config_eq.
Qed.

Lemma load_file_unparsable w σ :
  file σ = Some Unparsable →
  exec (load_file w) σ
  = with_config default_config
      (with_stdout (stdout σ ++ [ReadFailed JSONDecodeError]) σ).
Proof. intros Hf. unfold exec, load_file. py_unfold. simpl. by rewrite Hf. Qed.

Lemma load_file_object w σ o :
  file σ = Some (Json (DocObject o)) →
  exec (load_file w) σ = with_config (del_keys sensitive_keys o ∪ default_config) σ.
Proof. intros Hf. unfold exec, load_file. py_unfold. simpl. by rewrite Hf. Qed.

Section Loading.

Variable py_float : string → option float.

Lemma override_from_env_eq entry σ :
  override_from_env py_float entry σ = (Return tt, overridden py_float entry σ).
Proof.
  unfold override_from_env, overridden, float_of. py_unfold. simpl.
  destruct (environ σ !! entry.1) as [s|]; [|done].
  destruct (String.eqb s ""); simpl; [done|].
  by destruct (py_float s).
Qed.

Lemma load_config_eq w σ :
  load_config py_float w σ =
    (Return tt,
     credentials_from_env
       (overridden py_float ("DISCOUNT_THRESHOLD", "discount_threshold")
          (overridden py_float ("PREMIUM_THRESHOLD", "premium_threshold")
             (exec (load_file w) σ)))).
Proof.
  pose proof (load_file_returns w σ) as Hr. unfold result, exec in *.
  unfold load_config. unfold mbind at 1, Py_bind.
  destruct (load_file w σ) as [r σ1]. simpl in *. subst r.
  simpl. py_unfold. rewrite !override_from_env_eq. done.
Qed.

Lemma overridden_environ entry σ :
  environ (overridden py_float entry σ) = environ σ.
Proof.
  unfold overridden. destruct (environ σ !! entry.1) as [s|]; [|done].
  destruct (String.eqb s ""); [done|]. by destruct (py_float s).
Qed.

Lemma overridden_config entry σ :
  config (overridden py_float entry σ)
  = from_option (λ v, {[entry.2 := v]}) ∅ (env_value py_float (environ σ) entry.1)
    ∪ config σ.
Proof.
  unfold overridden, env_value.
  destruct (environ σ !! entry.1) as [s|]; simpl; [|by rewrite (left_id_L ∅ (∪))].
  destruct (String.eqb s ""); simpl; [by rewrite (left_id_L ∅ (∪))|].
  destruct (py_float s); simpl; [|by rewrite (left_id_L ∅ (∪))].
  by rewrite insert_union_singleton_l.
Qed.

(** The mapping [load_config] ends with: the environment layer over the
    mapping the file part has made. *)
Lemma load_config_config w σ :
  config (exec (load_config py_float w) σ)
  = env_layer py_float (environ σ) ∪ config (exec (load_file w) σ).
Proof.
  unfold exec at 1. rewrite load_config_eq. simpl.
  rewrite !overridden_config, overridden_environ, load_file_environ. simpl.
  unfold env_layer. by rewrite (assoc_L (∪)).
Qed.

Lemma overridden_stdout entry σ :
  stdout (overridden py_float entry σ)
  = (stdout σ ++ env_line py_float (environ σ) entry.1)%list.
Proof.
  unfold overridden, env_line.
  destruct (environ σ !! entry.1) as [s|]; [|by rewrite app_nil_r].
  destruct (String.eqb s ""); [by rewrite app_nil_r|].
  destruct (py_float s); [by rewrite app_nil_r|done].
Qed.

Lemma load_config_printed w σ :
  printed (load_config py_float w) σ
  = (printed (load_file w) σ
     ++ env_line py_float (environ σ) "PREMIUM_THRESHOLD"
     ++ env_line py_float (environ σ) "DISCOUNT_THRESHOLD")%list.
Proof.
  unfold printed at 1. unfold exec at 1. rewrite load_config_eq. simpl.
  rewrite !overridden_stdout, overridden_environ, load_file_environ. simpl.
  destruct (load_file_printed w σ) as [-> _].
  by rewrite <- !app_assoc, drop_app_length.
Qed.

End Loading.

(** C5: when [save_config] has written the file and [load_config] then
    reads that file with neither threshold variable set, every key of the
    saved mapping other than the two sensitive ones ends in the loaded
    mapping with the value it had before the save.  The load starts from any
    state [σ'] that has the saved file: what it held in memory before, a new
    process included, plays no part, so the values come from the file. *)
Theorem save_load_round_trip (py_float : string → option float)
    (w : write_result) (σ σ' : world) (key : string) (v : value) :
  file σ' = file (exec (save_config Written) σ) →
  environ σ' !! "PREMIUM_THRESHOLD" = None →
  environ σ' !! "DISCOUNT_THRESHOLD" = None →
  key ∉ sensitive_keys →
  config σ !! key = Some v →
  config (exec (load_config py_float w) σ') !! key = Some v.
Proof.
  intros Hfile Hp Hd Hkey Hv.
  unfold exec in Hfile. rewrite save_config_eq in Hfile. simpl in Hfile.
  rewrite load_config_config.
  rewrite (load_file_object _ _ (del_keys sensitive_keys (config σ))) by done.
  unfold env_layer, env_value. rewrite Hp, Hd. simpl.
  rewrite !(left_id_L ∅ (∪)).
  apply lookup_union_Some_l.
  by rewrite !lookup_del_keys, !decide_False.
Qed.

Lemma load_file_not_array w σ :
  not_array (file σ) →
  config (exec (load_file w) σ) = disk_layer (file σ) ∪ default_config.
Proof.
  intros Hf. destruct (file σ) as [[|[o|l|s|]]|] eqn:Hfile; try done; simpl;
    rewrite ?(left_id_L ∅ (∪)).
  - by rewrite load_file_unparsable.
  - by rewrite (load_file_object _ _ o).
  - unfold exec, load_file. py_unfold. simpl. rewrite Hfile. simpl.
    destruct (is_substring "dingtalk_webhook" s); simpl; [done|].
    py_unfold. simpl.
    destruct (is_substring "dingtalk_secret" s); simpl; [done|].
    by destruct s.
  - unfold exec, load_file. py_unfold. simpl. by rewrite Hfile.
  - rewrite load_file_absent by done. by rewrite saved_config.
Qed.

(** C6, as amended: when the file is not a JSON array, [load_config] ends
    with the environment layer over the disk layer over the defaults, where
    the disk layer is the file's object without its two sensitive keys, and
    is empty when the file is absent, does not parse or holds no object.  So
    a key the environment layer defines has its value; any other key the
    disk layer defines has the disk's value; a key neither defines has its
    default; and on an object the disk layer defines exactly the object's
    keys other than the sensitive two, with the object's values. *)
Theorem load_layers (py_float : string → option float) (w : write_result)
    (σ : world) :
  not_array (file σ) →
  let σ' := exec (load_config py_float w) σ in
  let env := env_layer py_float (environ σ) in
  let disk := disk_layer (file σ) in
  config σ' = env ∪ (disk ∪ default_config)
  ∧ (∀ key v, env !! key = Some v → config σ' !! key = Some v)
  ∧ (∀ key v, env !! key = None → disk !! key = Some v →
       config σ' !! key = Some v)
  ∧ (∀ key, env !! key = None → disk !! key = None →
       config σ' !! key = default_config !! key)
  ∧ (∀ o key, file σ = Some (Json (DocObject o)) →
       disk !! key = if decide (key ∈ sensitive_keys) then None else o !! key)
  ∧ (∀ key, file σ = None ∨ file σ = Some Unparsable → disk !! key = None).
Proof.
  intros Hf σ' env disk.
  assert (config σ' = env ∪ (disk ∪ default_config)) as Heq.
  { subst σ' disk. rewrite load_config_config. by rewrite load_file_not_array. }
  split; [done|]. rewrite Heq. repeat split.
  - intros key v Hk. by apply lookup_union_Some_l.
  - intros key v Hk Hdisk. rewrite lookup_union_r by done.
    by apply lookup_union_Some_l.
  - intros key Hk Hdisk. rewrite lookup_union_r by done.
    by apply lookup_union_r.
  - intros o key Ho. subst disk. rewrite Ho. simpl. apply lookup_del_keys.
  - intros key [Hn|Hu]; subst disk; [rewrite Hn|rewrite Hu]; done.
Qed.

(** C7: on a file that exists and does not parse, [load_config] returns
    without raising, the file part prints the failure and leaves exactly
    the defaults, and the line is among those [load_config] printed; the
    final mapping is the environment layer over the defaults, so the file
    has given it nothing, and the file stays as it was. *)
Theorem load_unparsable_falls_back (py_float : string → option float)
    (w : write_result) (σ : world) :
  let σ0 := with_file (Some Unparsable) σ in
  result (load_config py_float w) σ0 = Return tt
  ∧ config (exec (load_file w) σ0) = default_config
  ∧ printed (load_file w) σ0 = [ReadFailed JSONDecodeError]
  ∧ ReadFailed JSONDecodeError ∈ printed (load_config py_float w) σ0
  ∧ config (exec (load_config py_float w) σ0)
    = env_layer py_float (environ σ) ∪ default_config
  ∧ file (exec (load_config py_float w) σ0) = Some Unparsable.
Proof.
  intros σ0.
  assert (exec (load_file w) σ0
          = with_config default_config
              (with_stdout (stdout σ0 ++ [ReadFailed JSONDecodeError]) σ0)) as Hf.
  { by apply load_file_unparsable. }
  assert (printed (load_file w) σ0 = [ReadFailed JSONDecodeError]) as Hp.
  { unfold printed. rewrite Hf. simpl. by rewrite drop_app_length. }
  split; [unfold result; by rewrite load_config_eq|].
  split; [by rewrite Hf|]. split; [done|]. split.
  { rewrite load_config_printed, Hp. apply elem_of_app. left.
    by apply list_elem_of_singleton. }
  split; [by rewrite load_config_config, Hf|].
  unfold exec at 1. rewrite load_config_eq, Hf. simpl.
  unfold overridden. simpl.
  repeat match goal with |- context [match ?x with _ => _ end] => destruct x end;
    done.
Qed.

Lemma env_layer_lookup py_float env env_key config_key :
  (env_key, config_key) ∈ env_mapping →
  env_layer py_float env !! config_key = env_value py_float env env_key.
Proof.
  unfold env_mapping, env_layer. intros Hin.
  apply elem_of_cons in Hin as [Heq|Hin].
  - inversion Heq; subst.
    rewrite lookup_union_r.
    + destruct (env_value py_float env "PREMIUM_THRESHOLD"); simpl; [|done].
      apply lookup_singleton_eq.
    + by destruct (env_value py_float env "DISCOUNT_THRESHOLD").
  - apply list_elem_of_singleton in Hin. inversion Hin; subst.
    destruct (env_value py_float env "DISCOUNT_THRESHOLD") as [v|] eqn:Hv; simpl.
    + apply lookup_union_Some_l, lookup_singleton_eq.
    + rewrite (left_id_L ∅ (∪)).
      by destruct (env_value py_float env "PREMIUM_THRESHOLD").
Qed.

Lemma env_line_other py_float env env_key k s :
  k ≠ env_key → EnvFormat k s ∉ env_line py_float env env_key.
Proof.
  intros Hne Hin. unfold env_line in Hin.
  destruct (env !! env_key) as [t|]; [|by apply elem_of_nil in Hin].
  destruct (String.eqb t ""); [by apply elem_of_nil in Hin|].
  destruct (py_float t); [by apply elem_of_nil in Hin|].
  apply list_elem_of_singleton in Hin. congruence.
Qed.

(** C8, as amended: for a threshold variable that is set, [load_config]
    returns without raising and
    - when the value is not empty and [float] accepts it, the mapping holds
      its float under the variable's key;
    - when the value is not empty and [float] rejects it, the format error
      for the variable is among the lines printed and the mapping holds
      under the key what the file part left there;
    - when the value is the empty string, no format error for the variable
      is printed and the mapping holds under the key what the file part
      left there. *)
Theorem env_threshold_override (py_float : string → option float)
    (w : write_result) (σ : world) (env_key config_key s : string) :
  (env_key, config_key) ∈ env_mapping →
  environ σ !! env_key = Some s →
  let σ1 := exec (load_file w) σ in
  let σ' := exec (load_config py_float w) σ in
  result (load_config py_float w) σ = Return tt
  ∧ (s ≠ "" → ∀ f, py_float s = Some f → config σ' !! config_key = Some (VFloat f))
  ∧ (s ≠ "" → py_float s = None →
       EnvFormat env_key s ∈ printed (load_config py_float w) σ
       ∧ config σ' !! config_key = config σ1 !! config_key)
  ∧ (s = "" →
       (∀ s', EnvFormat env_key s' ∉ printed (load_config py_float w) σ)
       ∧ config σ' !! config_key = config σ1 !! config_key).
Proof.
  intros Hin Hs σ1 σ'.
  assert (∀ ov, env_value py_float (environ σ) env_key = ov →
          config σ' !! config_key = from_option Some (config σ1 !! config_key) ov)
    as Hcfg.
  { intros ov Hov. subst σ' σ1. rewrite load_config_config.
    rewrite <- (env_layer_lookup py_float _ _ _ Hin) in Hov.
    destruct ov as [v|]; simpl.
    - by apply lookup_union_Some_l.
    - by apply lookup_union_r. }
  split; [unfold result; by rewrite load_config_eq|].
  split; [|split].
  - intros Hne f Hf. rewrite (Hcfg (Some (VFloat f))); [done|].
    unfold env_value. rewrite Hs. simpl.
    apply String.eqb_neq in Hne. by rewrite Hne, Hf.
  - intros Hne Hf. split.
    + rewrite load_config_printed.
      assert (env_line py_float (environ σ) env_key = [EnvFormat env_key s]) as Hl.
      { unfold env_line. rewrite Hs.
        apply String.eqb_neq in Hne. by rewrite Hne, Hf. }
      apply elem_of_cons in Hin as [Heq|Hin].
      * inversion Heq; subst. rewrite Hl.
        apply elem_of_app. right. apply elem_of_app. left.
        by apply list_elem_of_singleton.
      * apply list_elem_of_singleton in Hin. inversion Hin; subst. rewrite Hl.
        apply elem_of_app. right. apply elem_of_app. right.
        by apply list_elem_of_singleton.
    + rewrite (Hcfg None); [done|].
      unfold env_value. rewrite Hs. simpl.
      apply String.eqb_neq in Hne. by rewrite Hne, Hf.
  - intros ->. split.
    + intros s' Hp. rewrite load_config_printed in Hp.
      assert (env_line py_float (environ σ) env_key = []) as Hl.
      { unfold env_line. by rewrite Hs. }
      apply elem_of_app in Hp as [Hp|Hp].
      { by apply (proj2 (load_file_printed w σ)) in Hp. }
      apply elem_of_cons in Hin as [Heq|Hin].
      * inversion Heq; subst. rewrite Hl in Hp. simpl in Hp.
        by apply env_line_other in Hp.
      * apply list_elem_of_singleton in Hin. inversion Hin; subst.
        rewrite Hl, app_nil_r in Hp.
        by apply env_line_other in Hp.
    + rewrite (Hcfg None); [done|].
      unfold env_value. by rewrite Hs.
Qed.

(** ** Setting a credential *)


(** ** The mapping without the sensitive keys *)

Lemma config_clean_insert key v σ :
  key ∉ sensitive_keys → config_clean σ →
  config_clean (with_config (<[key := v]> (config σ)) σ).
Proof.
  intros Hkey Hc k Hk. simpl.
  rewrite lookup_insert_ne by (intros ->; done). by apply Hc.
Qed.

Lemma config_clean_default σ : config_clean (with_config default_config σ).
Proof.
  intros k Hk. simpl.
  apply elem_of_cons in Hk as [->|Hk]; [done|].
  by apply list_elem_of_singleton in Hk as ->.
Qed.

Lemma saved_clean w σ :
  config_clean σ ∧ not_array (file σ) →
  config_clean (saved w σ) ∧ not_array (file (saved w σ)).
Proof. intros [Hc Hf]. by destruct w. Qed.

Lemma check_reset_clean today w σ :
  config_clean σ ∧ not_array (file σ) →
  config_clean (exec (check_reset_daily_alerts today w) σ)
  ∧ not_array (file (exec (check_reset_daily_alerts today w) σ)).
Proof.
  intros [Hc Hf]. unfold exec. rewrite check_reset_eq.
  destruct (stale today (config σ)); [|done]. simpl.
  apply saved_clean. split; [|done].
  apply (config_clean_insert _ _ (with_config _ σ)); [decide_it|].
  by apply config_clean_insert; [decide_it|].
Qed.

Lemma load_file_clean w σ :
  not_array (file σ) →
  config_clean (exec (load_file w) σ) ∧ not_array (file (exec (load_file w) σ)).
Proof.
  intros Hf. destruct (file σ) as [[|[o|l|s|]]|] eqn:Hfile; try done.
  - rewrite load_file_unparsable by done. split; [apply config_clean_default|].
    simpl. by rewrite Hfile.
  - rewrite (load_file_object _ _ o) by done. split; [|simpl; by rewrite Hfile].
    intros k Hk. simpl. apply lookup_union_None. split.
    + by rewrite lookup_del_keys, decide_True.
    + by apply (config_clean_default σ).
  - unfold exec, load_file. py_unfold. simpl. rewrite Hfile. simpl.
    destruct (is_substring "dingtalk_webhook" s); simpl.
    { split; [apply config_clean_default|]. simpl. by rewrite Hfile. }
    py_unfold. simpl.
    destruct (is_substring "dingtalk_secret" s); simpl.
    { split; [apply config_clean_default|]. simpl. by rewrite Hfile. }
    destruct s; simpl; (split; [apply config_clean_default|]); simpl;
      by rewrite Hfile.
  - unfold exec, load_file. py_unfold. simpl. rewrite Hfile. simpl.
    split; [apply config_clean_default|]. simpl. by rewrite Hfile.
  - rewrite load_file_absent by done. apply saved_clean.
    split; [apply config_clean_default|]. simpl. by rewrite Hfile.
Qed.

Section Clean.

Variable py_float : string → option float.

Lemma overridden_clean entry σ :
  entry ∈ env_mapping →
  config_clean σ ∧ not_array (file σ) →
  config_clean (overridden py_float entry σ)
  ∧ not_array (file (overridden py_float entry σ)).
Proof.
  intros Hin [Hc Hf]. unfold overridden.
  destruct (environ σ !! entry.1) as [s|]; [|done].
  destruct (String.eqb s ""); [done|].
  destruct (py_float s); [|done]. split; [|done].
  apply config_clean_insert; [|done].
  apply elem_of_cons in Hin as [->|Hin]; [decide_it|].
  apply list_elem_of_singleton in Hin as ->. decide_it.
Qed.

Lemma load_config_clean w σ :
  not_array (file σ) →
  config_clean (exec (load_config py_float w) σ)
  ∧ not_array (file (exec (load_config py_float w) σ)).
Proof.
  intros Hf. unfold exec at 1 2. rewrite load_config_eq. simpl.
  change (config_clean
            (overridden py_float ("DISCOUNT_THRESHOLD", "discount_threshold")
               (overridden py_float ("PREMIUM_THRESHOLD", "premium_threshold")
                  (exec (load_file w) σ)))
          ∧ not_array
              (file (overridden py_float ("DISCOUNT_THRESHOLD", "discount_threshold")
                 (overridden py_float ("PREMIUM_THRESHOLD", "premium_threshold")
                    (exec (load_file w) σ))))).
  apply overridden_clean; [decide_it|].
  apply overridden_clean; [decide_it|].
  by apply load_file_clean.
Qed.

Lemma perform_clean c σ :
  config_clean σ ∧ not_array (file σ) →
  config_clean (perform py_float c σ) ∧ not_array (file (perform py_float c σ)).
Proof.
  intros [Hc Hf]. destruct c as [w|w|key dflt|key v w|today w|today code w|today code w w'];
    simpl.
  - by apply load_config_clean.
  - unfold exec. rewrite save_config_eq. by apply saved_clean.
  - unfold exec, get. py_unfold.
    by repeat match goal with |- context [if ?b then _ else _] => destruct b end.
  - unfold exec, set. py_unfold.
    destruct (String.eqb key "dingtalk_webhook") eqn:Hw; simpl;
      [rewrite save_config_eq; by apply saved_clean|].
    destruct (String.eqb key "dingtalk_secret") eqn:Hs; simpl;
      [rewrite save_config_eq; by apply saved_clean|].
    rewrite save_config_eq. apply saved_clean. split; [|done].
    apply config_clean_insert; [|done].
    apply String.eqb_neq in Hw, Hs.
    intros Hin. apply elem_of_cons in Hin as [->|Hin]; [done|].
    by apply list_elem_of_singleton in Hin as ->.
  - by apply check_reset_clean.
  - rewrite is_fund_alerted_exec. by apply check_reset_clean.
  - pose proof (check_reset_clean today w σ (conj Hc Hf)) as [Hc1 Hf1].
    destruct (mark_fund_alerted_exec today code w w' σ) as [->|[v ->]]; [done|].
    apply saved_clean. split; [|done].
    by apply config_clean_insert; [decide_it|].
Qed.

(** X1: when the file the process starts with is not a JSON array, the
    mapping holds neither sensitive key after [load_config] and after every
    call that follows. *)
Theorem mapping_never_holds_credentials (w : write_result) (cs : list call)
    (σ : world) :
  not_array (file σ) →
  config (run py_float (CallLoad w :: cs) σ) !! "dingtalk_webhook" = None
  ∧ config (run py_float (CallLoad w :: cs) σ) !! "dingtalk_secret" = None.
Proof.
  intros Hf. simpl.
  assert (∀ cs σ, config_clean σ ∧ not_array (file σ) →
          config_clean (run py_float cs σ)) as Hrun.
  { clear. intros cs. induction cs as [|c cs IH]; intros σ Hσ; simpl.
    - apply Hσ.
    - apply IH. by apply perform_clean. }
  assert (config_clean (run py_float cs (exec (load_config py_float w) σ))) as Hc.
  { apply Hrun. by apply load_config_clean. }
  split; apply Hc; decide_it.
Qed.

End Clean.

(** ** Concrete runs *)

(** C3 as it was stated fails: a file that already lists a code twice under
    today's date keeps both entries through two calls of
    [mark_fund_alerted]. *)
Lemma mark_twice_keeps_earlier_duplicates :
  let o : gmap string value :=
    <["last_alert_date" := VStr "2024-05-01"]>
      (<["alerted_funds" := VList [VStr "161725"; VStr "161725"]]> ∅) in
  let σ := started ∅ (Some (Json (DocObject o))) in
  let σ2 := exec (mark_fund_alerted "2024-05-01" "161725" Written Written)
              (exec (mark_fund_alerted "2024-05-01" "161725" Written Written) σ) in
  config σ2 !! "alerted_funds" = Some (VList [VStr "161725"; VStr "161725"])
  ∧ occurrences "161725" [VStr "161725"; VStr "161725"] = 2.
Proof. split; reflexivity. Qed.

(** C3, the amended statement on a fresh start. *)
Lemma mark_twice_once_witness :
  let σ := started ∅ None in
  config σ !! "last_alert_date" ≠ Some (VStr "2024-05-01")
  ∧ ∃ l, config (exec (mark_fund_alerted "2024-05-01" "161725" Written Written)
                   (exec (mark_fund_alerted "2024-05-01" "161725" Written Written) σ))
           !! "alerted_funds" = Some (VList l)
         ∧ occurrences "161725" l = 1.
Proof.
  assert (config (started ∅ None) !! "last_alert_date" ≠ Some (VStr "2024-05-01"))
    as Hne by (vm_compute; discriminate).
  split; [exact Hne|].
  exact (proj1 (proj2 (proj2
    (mark_twice_once "2024-05-01" "161725" Written Written Written Written
       (started ∅ None) (or_introl Hne))))).
Defined.

(** C4 on two consecutive days. *)
Lemma alert_forgotten_on_another_date_witness :
  "2024-05-01" ≠ "2024-05-02"
  ∧ result (is_fund_alerted "2024-05-02" "161725" Written)
      (exec (mark_fund_alerted "2024-05-01" "161725" Written Written) (started ∅ None))
    = Return false.
Proof.
  assert ("2024-05-01" ≠ "2024-05-02") as Hne by discriminate.
  split; [exact Hne|].
  exact (proj1 (alert_forgotten_on_another_date "2024-05-01" "2024-05-02" "161725"
                  Written Written Written (started ∅ None) Hne)).
Defined.

(** C5 on a mode that only the save has brought to the file, read back by
    a process that starts with nothing in memory. *)
Lemma save_load_round_trip_witness :
  let σ := exec (set "mode" (VStr "terminal") OpenFails) (started ∅ None) in
  let σ' := fresh ∅ (file (exec (save_config Written) σ)) in
  (config σ !! "mode" = Some (VStr "terminal") ∧ config σ' !! "mode" = None)
  ∧ config (exec (load_config sample_float Written) σ') !! "mode"
    = Some (VStr "terminal").
Proof.
  intros σ σ'. split; [by split|].
  apply (save_load_round_trip sample_float Written σ σ' "mode" (VStr "terminal")).
  - reflexivity.
  - reflexivity.
  - reflexivity.
  - decide_it.
  - reflexivity.
Defined.

(** C6, the amended statement on a file whose object brings a mode and a
    stale webhook, with one threshold from the environment. *)
Lemma load_layers_witness :
  let o : gmap string value :=
    {["mode" := VStr "terminal"; "dingtalk_webhook" := VStr "https://old.example"]} in
  let σ := fresh {["PREMIUM_THRESHOLD" := "25.5"]} (Some (Json (DocObject o))) in
  not_array (file σ)
  ∧ config (exec (load_config sample_float Written) σ)
    = env_layer sample_float (environ σ) ∪ (disk_layer (file σ) ∪ default_config).
Proof.
  intros o σ. split; [exact I|].
  exact (proj1 (load_layers sample_float Written σ I)).
Defined.

(** C6 as it was stated fails: the file defines [dingtalk_webhook], the
    environment does not, and the mapping [load_config] ends with has no
    such key. *)
Lemma file_credential_is_not_loaded :
  let o : gmap string value := {["dingtalk_webhook" := VStr "https://old.example"]} in
  let σ' := started ∅ (Some (Json (DocObject o))) in
  ¬ (∀ key v, o !! key = Some v → env_layer sample_float ∅ !! key = None →
       config σ' !! key = Some v).
Proof.
  intros o σ' H.
  specialize (H "dingtalk_webhook" (VStr "https://old.example") eq_refl eq_refl).
  vm_compute in H. discriminate.
Qed.

(** C8 as it was stated fails: with the variable set to the empty string,
    which [float] rejects, [load_config] prints nothing. *)
Lemma empty_threshold_variable_prints_nothing :
  let env : gmap string string := {["PREMIUM_THRESHOLD" := ""]} in
  env !! "PREMIUM_THRESHOLD" = Some ""
  ∧ sample_float "" = None
  ∧ printed (load_config sample_float Written) (fresh env None) = [].
Proof. repeat split; reflexivity. Qed.

(** C8, the amended statement on a numeral and on a misspelt one. *)
Lemma env_threshold_override_witness :
  let env : gmap string string :=
    {["PREMIUM_THRESHOLD" := "25.5"; "DISCOUNT_THRESHOLD" := "4o"]} in
  (sample_float "25.5" = Some 25.5%float
   ∧ config (started env None) !! "premium_threshold" = Some (VFloat 25.5))
  ∧ (sample_float "4o" = None
     ∧ EnvFormat "DISCOUNT_THRESHOLD" "4o"
         ∈ printed (load_config sample_float Written) (fresh env None)).
Proof.
  set (env := {["PREMIUM_THRESHOLD" := "25.5"; "DISCOUNT_THRESHOLD" := "4o"]}
              : gmap string string).
  split; (split; [reflexivity|]).
  - refine (proj1 (proj2
      (env_threshold_override sample_float Written (fresh env None)
         "PREMIUM_THRESHOLD" "premium_threshold" "25.5" _ _)) _ 25.5%float _).
    + decide_it.
    + reflexivity.
    + discriminate.
    + reflexivity.
  - refine (proj1 (proj1 (proj2 (proj2
      (env_threshold_override sample_float Written (fresh env None)
         "DISCOUNT_THRESHOLD" "discount_threshold" "4o" _ _))) _ _)).
    + decide_it.
    + reflexivity.
    + discriminate.
    + reflexivity.
Defined.


(** C10 fails on the code: from a file that holds the JSON array
    [[["dingtalk_webhook", "https://old.example"]]] the loop that strips the
    sensitive keys finds no element equal to a key, [update] takes the pair,
    and the mapping holds [dingtalk_webhook]. *)
Theorem array_file_puts_credential_in_mapping :
  let f := Json (DocArray [EPair "dingtalk_webhook" (VStr "https://old.example")]) in
  config (started ∅ (Some f)) !! "dingtalk_webhook"
  = Some (VStr "https://old.example")
  ∧ printed (load_config sample_float Written) (fresh ∅ (Some f)) = [].
Proof. split; reflexivity. Qed.

(** X1 on a file that holds a stale secret. *)
Lemma mapping_never_holds_credentials_witness :
  let cs := [CallSet "dingtalk_webhook" (VStr "https://hook.example") Written;
             CallMark "2024-05-01" "161725" Written Written;
             CallLoad Written] in
  let o : gmap string value := {["dingtalk_secret" := VStr "old"]} in
  not_array (Some (Json (DocObject o)))
  ∧ config (run sample_float (CallLoad Written :: cs)
              (fresh ∅ (Some (Json (DocObject o))))) !! "dingtalk_webhook" = None.
Proof.
  split; [exact I|].
  exact (proj1 (mapping_never_holds_credentials sample_float Written _
                  (fresh ∅ (Some (Json (DocObject {["dingtalk_secret" := VStr "old"]}))))
                  I)).
Defined.

(** * Further properties of the methods *)

(** ** Reading and writing entries *)

Lemma get_eq key dflt σ : get key dflt σ = (Return (got key dflt σ), σ).
Proof.
  unfold get, got. py_unfold.
  by repeat match goal with |- context [if ?b then _ else _] => destruct b end.
Qed.

Lemma got_saved key dflt w σ : got key dflt (saved w σ) = got key dflt σ.
Proof. by destruct w. Qed.

Lemma set_eq key v w σ :
  set key v w σ =
    (Return tt,
     saved w (if String.eqb key "dingtalk_webhook" then with_webhook v σ
              else if String.eqb key "dingtalk_secret" then with_secret v σ
              else with_config (<[key := v]> (config σ)) σ)).
Proof.
  unfold set. py_unfold.
  destruct (String.eqb key "dingtalk_webhook"); simpl;
    [by rewrite save_config_eq|].
  destruct (String.eqb key "dingtalk_secret"); simpl; by rewrite save_config_eq.
Qed.

Lemma not_sensitive key :
  key ∉ sensitive_keys →
  String.eqb key "dingtalk_webhook" = false ∧ String.eqb key "dingtalk_secret" = false.
Proof.
  intros Hkey. split; apply String.eqb_neq; intros ->; apply Hkey; decide_it.
Qed.

(** X2: after [load_config], whatever the file held and whatever the
    instance held before, [get] of a sensitive key returns the value of its
    environment variable when that is set and not empty, and the default
    otherwise. *)
Theorem get_credential_after_load (py_float : string → option float)
    (w : write_result) (σ : world) (dflt : value) :
  let σ' := exec (load_config py_float w) σ in
  let from_env (var : string) :=
    match environ σ !! var with
    | Some s => if String.eqb s "" then dflt else VStr s
    | None => dflt
    end in
  result (get "dingtalk_webhook" dflt) σ' = Return (from_env "DINGTALK_WEBHOOK")
  ∧ result (get "dingtalk_secret" dflt) σ' = Return (from_env "DINGTALK_SECRET").
Proof.
  intros σ' from_env. subst σ'. unfold result, exec.
  rewrite !get_eq, load_config_eq. simpl. unfold got. simpl.
  rewrite !overridden_environ, load_file_environ. unfold py_or. subst from_env.
  split.
  - destruct (environ σ !! "DINGTALK_WEBHOOK") as [s|]; simpl; [|done].
    by destruct (String.eqb s "").
  - destruct (environ σ !! "DINGTALK_SECRET") as [s|]; simpl; [|done].
    by destruct (String.eqb s "").
Qed.

(** X3: [set] of a key other than the two sensitive ones never raises, and
    whatever becomes of the write, [get] of that key then returns the value
    set, while [get] of any other key returns what it did before. *)
Theorem set_then_get (key : string) (v : value) (w : write_result) (σ : world) :
  key ∉ sensitive_keys →
  result (set key v w) σ = Return tt
  ∧ (∀ dflt, result (get key dflt) (exec (set key v w) σ) = Return v)
  ∧ (∀ key' dflt, key' ≠ key →
       result (get key' dflt) (exec (set key v w) σ) = result (get key' dflt) σ).
Proof.
  intros Hkey. destruct (not_sensitive key Hkey) as [Hw Hs].
  unfold result, exec. rewrite set_eq, Hw, Hs. simpl.
  split; [done|]. split.
  - intros dflt. rewrite get_eq. simpl. rewrite got_saved.
    unfold got. rewrite Hw, Hs. simpl. by rewrite lookup_insert_eq.
  - intros key' dflt Hne. rewrite !get_eq. simpl. rewrite got_saved.
    unfold got. simpl.
    destruct (String.eqb key' "dingtalk_webhook"); [done|].
    destruct (String.eqb key' "dingtalk_secret"); [done|].
    by rewrite lookup_insert_ne.
Qed.

Lemma set_then_get_witness :
  ("mode" ∉ sensitive_keys)
  ∧ result (get "mode" VNone)
      (exec (set "mode" (VStr "terminal") Torn) (started ∅ None))
    = Return (VStr "terminal").
Proof.
  assert ("mode" ∉ sensitive_keys) as Hkey by decide_it.
  split; [exact Hkey|].
  exact (proj1 (proj2 (set_then_get "mode" (VStr "terminal") Torn
                         (started ∅ None) Hkey)) VNone).
Defined.

(** X4: after [set] of a sensitive key, [get] of that key returns the value
    set when it is truthy and the default of the call otherwise (so an empty
    string or [None] reads as unset), and the mapping answers every other key
    as before. *)
Theorem set_then_get_credential (key : string) (v dflt : value)
    (w : write_result) (σ : world) :
  key ∈ sensitive_keys →
  result (get key dflt) (exec (set key v w) σ)
  = Return (if truthy v then v else dflt)
  ∧ (∀ key' d, key' ∉ sensitive_keys →
       result (get key' d) (exec (set key v w) σ) = result (get key' d) σ).
Proof.
  intros Hkey. unfold result, exec. rewrite set_eq. simpl.
  assert (∀ key' d, key' ∉ sensitive_keys →
          ∀ u, got key' d (with_webhook u σ) = got key' d σ
               ∧ got key' d (with_secret u σ) = got key' d σ) as Hother.
  { intros key' d Hk' u. destruct (not_sensitive key' Hk') as [Hw Hs].
    unfold got. by rewrite Hw, Hs. }
  split.
  - rewrite get_eq. simpl. rewrite got_saved.
    apply elem_of_cons in Hkey as [->|Hkey];
      [|apply list_elem_of_singleton in Hkey as ->]; done.
  - intros key' d Hk'. rewrite !get_eq. simpl. rewrite got_saved.
    apply elem_of_cons in Hkey as [->|Hkey];
      [|apply list_elem_of_singleton in Hkey as ->]; simpl; f_equal;
      by apply Hother.
Qed.

Lemma set_then_get_credential_witness :
  "dingtalk_secret" ∈ sensitive_keys
  ∧ result (get "dingtalk_secret" (VStr "none"))
      (exec (set "dingtalk_secret" (VStr "") Written)
         (started {["DINGTALK_SECRET" := "SEC123"]} None))
    = Return (VStr "none").
Proof.
  assert ("dingtalk_secret" ∈ sensitive_keys) as Hkey by decide_it.
  split; [exact Hkey|].
  exact (proj1 (set_then_get_credential "dingtalk_secret" (VStr "") (VStr "none")
                  Written (started {["DINGTALK_SECRET" := "SEC123"]} None) Hkey)).
Defined.

(** ** Loading a file that exists *)

#[local] Instance only_config_changed_refl : Reflexive only_config_changed.
Proof. intros σ. by destruct σ. Qed.

#[local] Instance only_config_changed_trans : Transitive only_config_changed.
Proof.
  unfold only_config_changed. intros σ1 σ2 σ3 H12 H23.
  rewrite H23 at 1. by rewrite H12.
Qed.

Lemma read_file_only_config c σ : only_config_changed σ (exec (read_file c) σ).
Proof.
  revert σ. change (steps only_config_changed (read_file c)). unfold read_file.
  sapply steps_bind; [unfold json_load; steps_split|]. intros saved.
  sapply steps_bind; [sapply respect_strip_loaded|]. intros saved'.
  sapply steps_bind; [by sapply steps_modify|]. intros _.
  unfold config_update. destruct saved' as [o|l|s|].
  - by sapply steps_modify.
  - by sapply respect_update_from_pairs.
  - steps_split.
  - steps_split.
Qed.

(** [load_file] on an existing file: the mapping of the block when it
    returns, the defaults and one line when it raises. *)
Lemma load_file_existing w σ c :
  file σ = Some c →
  exec (load_file w) σ =
    match result (read_file c) σ with
    | Return _ => with_config (config (exec (read_file c) σ)) σ
    | Raise e =>
        with_config default_config (with_stdout (stdout σ ++ [ReadFailed e]) σ)
    end.
Proof.
  intros Hf. pose proof (read_file_only_config c σ) as Honly.
  unfold only_config_changed, exec, result in *.
  destruct (read_file c σ) as [r σ1] eqn:Hr. simpl in Honly.
  unfold load_file. unfold mbind at 1, Py_bind, gets.
  rewrite Hf. unfold try_except.
  match goal with |- context [let (o, σ') := ?b in _] =>
    change b with (read_file c σ) end.
  rewrite Hr. destruct r as [[]|e]; simpl.
  - exact Honly.
  - py_unfold. simpl. by rewrite Honly.
Qed.

(** X6: [load_config] never writes to a file that exists, whatever it
    holds: the file is afterwards what it was, and no save has failed
    either, for none was tried. *)
Theorem load_keeps_existing_file (py_float : string → option float)
    (w : write_result) (σ : world) (c : content) :
  let σ0 := with_file (Some c) σ in
  file (exec (load_config py_float w) σ0) = Some c
  ∧ ∀ e, SaveFailed e ∉ printed (load_config py_float w) σ0.
Proof.
  intros σ0.
  assert (exec (load_file w) σ0
          = match result (read_file c) σ0 with
            | Return _ => with_config (config (exec (read_file c) σ0)) σ0
            | Raise e =>
                with_config default_config
                  (with_stdout (stdout σ0 ++ [ReadFailed e]) σ0)
            end) as Hl by (by apply load_file_existing).
  split.
  - unfold exec at 1. rewrite load_config_eq. simpl.
    assert (∀ entry σ1, file (overridden py_float entry σ1) = file σ1) as Hov.
    { intros entry σ1. unfold overridden.
      destruct (environ σ1 !! entry.1) as [s|]; [|done].
      destruct (String.eqb s ""); [done|]. by destruct (py_float s). }
    rewrite !Hov, Hl. by destruct (result (read_file c) σ0).
  - intros e He. rewrite load_config_printed in He.
    apply elem_of_app in He as [He|He].
    + unfold printed in He. rewrite Hl in He.
      destruct (result (read_file c) σ0); simpl in He.
      * rewrite drop_all in He. by apply elem_of_nil in He.
      * rewrite drop_app_length in He. by apply list_elem_of_singleton in He.
    + assert (∀ env_key, SaveFailed e ∉ env_line py_float (environ σ0) env_key)
        as Hline.
      { intros env_key Hin. unfold env_line in Hin.
        destruct (environ σ0 !! env_key) as [s|]; [|by apply elem_of_nil in Hin].
        destruct (String.eqb s ""); [by apply elem_of_nil in Hin|].
        destruct (py_float s); [by apply elem_of_nil in Hin|].
        by apply list_elem_of_singleton in Hin. }
      apply elem_of_app in He as [He|He]; by apply Hline in He.
Qed.

(** X7: when the file part of [load_config] prints a read failure, the
    mapping it leaves is exactly the defaults: nothing of the file is
    merged, not even the pairs of an array that come before a bad element. *)
Theorem read_failure_means_defaults (w : write_result) (σ : world) (e : exn) :
  ReadFailed e ∈ printed (load_file w) σ →
  config (exec (load_file w) σ) = default_config.
Proof.
  intros He. destruct (file σ) as [c|] eqn:Hf.
  - unfold printed in He. rewrite (load_file_existing w σ c Hf) in *.
    destruct (result (read_file c) σ); simpl in *; [|done].
    rewrite drop_all in He. by apply elem_of_nil in He.
  - rewrite load_file_absent by done. by rewrite saved_config.
Qed.

Lemma read_failure_means_defaults_witness :
  let f := Json (DocArray [EPair "mode" (VStr "terminal"); EOther]) in
  ReadFailed TypeError ∈ printed (load_file Written) (fresh ∅ (Some f))
  ∧ config (exec (load_file Written) (fresh ∅ (Some f))) !! "mode"
    = Some (VStr "ui").
Proof.
  assert (ReadFailed TypeError
            ∈ printed (load_file Written)
                (fresh ∅ (Some (Json (DocArray [EPair "mode" (VStr "terminal");
                                                EOther]))))) as Hin.
  { change (ReadFailed TypeError ∈ [ReadFailed TypeError]).
    by apply list_elem_of_singleton. }
  split; [exact Hin|].
  rewrite (read_failure_means_defaults Written _ TypeError Hin). reflexivity.
Defined.

(** X5: when no file exists, [load_config] writes the defaults to it before
    it looks at the environment: after a write that succeeds the file holds
    exactly the defaults, also where a threshold variable overrides one in
    the mapping; when [open] fails there is still no file and the failure is
    printed; in every case the mapping is the environment layer over the
    defaults. *)
Theorem load_without_file (py_float : string → option float) (w : write_result)
    (σ : world) :
  let σ0 := with_file None σ in
  file (exec (load_config py_float Written) σ0) = Some (Json (DocObject default_config))
  ∧ file (exec (load_config py_float OpenFails) σ0) = None
  ∧ SaveFailed OSError ∈ printed (load_config py_float OpenFails) σ0
  ∧ config (exec (load_config py_float w) σ0)
    = env_layer py_float (environ σ) ∪ default_config.
Proof.
  intros σ0.
  assert (∀ entry σ1, file (overridden py_float entry σ1) = file σ1) as Hov.
  { intros entry σ1. unfold overridden.
    destruct (environ σ1 !! entry.1) as [s|]; [|done].
    destruct (String.eqb s ""); [done|]. by destruct (py_float s). }
  repeat split.
  - unfold exec at 1. rewrite load_config_eq. simpl.
    by rewrite !Hov, load_file_absent.
  - unfold exec at 1. rewrite load_config_eq. simpl.
    by rewrite !Hov, load_file_absent.
  - rewrite load_config_printed. apply elem_of_app. left.
    unfold printed. rewrite load_file_absent by done. simpl.
    rewrite drop_app_length. by apply list_elem_of_singleton.
  - rewrite load_config_config. by rewrite load_file_absent, saved_config.
Qed.

(** ** The daily bookkeeping, case by case *)

Lemma get_exec key dflt σ : exec (get key dflt) σ = σ.
Proof. unfold exec. by rewrite get_eq. Qed.

(** [is_fund_alerted] is the membership test in the state the reset leaves. *)
Lemma is_fund_alerted_eq today code w σ :
  is_fund_alerted today code w σ =
    let σ1 := exec (check_reset_daily_alerts today w) σ in
    py_in code (default (VList []) (config σ1 !! "alerted_funds")) σ1.
Proof.
  unfold exec, is_fund_alerted. unfold mbind at 1, Py_bind.
  rewrite check_reset_eq. by destruct (stale today (config σ)).
Qed.

Lemma py_in_state code v σ : (py_in code v σ).2 = σ.
Proof. by destruct v. Qed.

(** [mark_fund_alerted] when the date is current, by the kind of value
    stored under [alerted_funds]. *)
Lemma mark_current today code w w' σ :
  stale today (config σ) = false →
  mark_fund_alerted today code w w' σ =
    match default (VList []) (config σ !! "alerted_funds") with
    | VList l =>
        if existsb (λ v, str_eq v code) l then (Return tt, σ)
        else (Return tt,
              saved w' (with_config
                          (<["alerted_funds" := VList (l ++ [VStr code])]> (config σ)) σ))
    | VStr s =>
        if is_substring code s then (Return tt, σ) else (Raise AttributeError, σ)
    | VDict d =>
        if bool_decide (is_Some (d !! code)) then (Return tt, σ)
        else (Raise AttributeError, σ)
    | _ => (Raise TypeError, σ)
    end.
Proof.
  intros Hs. unfold mark_fund_alerted.
  unfold mbind at 1, Py_bind. rewrite check_reset_eq, Hs.
  py_unfold. simpl.
  destruct (default (VList []) (config σ !! "alerted_funds")) as [| | | |s|l|d];
    simpl; try done.
  - by destruct (is_substring code s).
  - destruct (existsb _ l); simpl; [done|]. by rewrite save_config_eq.
  - by case_bool_decide.
Qed.

Lemma stale_after_mark today code w w' σ :
  stale today (config (exec (mark_fund_alerted today code w w') σ)) = false.
Proof. apply stale_spec, mark_advances_date. Qed.

Lemma check_reset_current today w σ :
  stale today (config σ) = false → exec (check_reset_daily_alerts today w) σ = σ.
Proof. intros Hs. unfold exec. by rewrite check_reset_eq, Hs. Qed.

Lemma existsb_app_one code other (l : list value) :
  code ≠ other →
  existsb (λ v, str_eq v other) (l ++ [VStr code])
  = existsb (λ v, str_eq v other) l.
Proof.
  intros Hne. rewrite existsb_app. simpl.
  apply String.eqb_neq in Hne. rewrite Hne. by rewrite !orb_false_r.
Qed.

(** X9: when [mark_fund_alerted code] has returned, [is_fund_alerted code]
    on the same date returns true, whatever kind of value was stored under
    [alerted_funds] and whatever became of the writes. *)
Theorem mark_then_asked (today code : string) (w w' w2 : write_result) (σ : world) :
  result (mark_fund_alerted today code w w') σ = Return tt →
  result (is_fund_alerted today code w2) (exec (mark_fund_alerted today code w w') σ)
  = Return true.
Proof.
  intros Hr. pose proof (stale_after_mark today code w w' σ) as Hs2.
  unfold result in *. rewrite is_fund_alerted_eq. cbv zeta.
  rewrite check_reset_current by done. unfold exec in *.
  destruct (stale today (config σ)) eqn:Hs.
  - rewrite mark_stale in * by done. simpl. rewrite !saved_config. simpl.
    rewrite lookup_insert_eq. simpl. by rewrite String.eqb_refl.
  - rewrite mark_current in * by done.
    destruct (default (VList []) (config σ !! "alerted_funds"))
      as [| | | |s|l|d] eqn:Hv; simpl in *; try done.
    + destruct (is_substring code s) eqn:Hsub; simpl in *; [|done].
      by rewrite Hv; simpl; rewrite Hsub.
    + destruct (existsb _ l) eqn:Hex; simpl in *.
      * by rewrite Hv; simpl; rewrite Hex.
      * rewrite saved_config. simpl. rewrite lookup_insert_eq. simpl.
        rewrite existsb_app. simpl. by rewrite String.eqb_refl, orb_true_r.
    + case_bool_decide as Hd; simpl in *; [|done].
      rewrite Hv. simpl. by rewrite bool_decide_true.
Qed.

Lemma mark_then_asked_witness :
  let σ := started ∅ None in
  result (mark_fund_alerted "2024-05-01" "161725" Written OpenFails) σ = Return tt
  ∧ result (is_fund_alerted "2024-05-01" "161725" Torn)
      (exec (mark_fund_alerted "2024-05-01" "161725" Written OpenFails) σ)
    = Return true.
Proof.
  assert (result (mark_fund_alerted "2024-05-01" "161725" Written OpenFails)
            (started ∅ None) = Return tt) as Hr by reflexivity.
  split; [exact Hr|].
  exact (mark_then_asked "2024-05-01" "161725" Written OpenFails Torn
           (started ∅ None) Hr).
Defined.

(** X10: marking one code does not change what [is_fund_alerted] answers
    for another code on the same date, from any state: it returns or raises
    as it would have without the marking. *)
Theorem mark_leaves_other_codes (today code other : string)
    (w w' w2 w3 : write_result) (σ : world) :
  code ≠ other →
  result (is_fund_alerted today other w2)
    (exec (mark_fund_alerted today code w w') σ)
  = result (is_fund_alerted today other w3) σ.
Proof.
  intros Hne. pose proof (stale_after_mark today code w w' σ) as Hs2.
  unfold result. rewrite !is_fund_alerted_eq. cbv zeta.
  rewrite (check_reset_current today w2) by done. unfold exec in *.
  rewrite (check_reset_eq today w3 σ).
  destruct (stale today (config σ)) eqn:Hs; simpl.
  - rewrite mark_stale by done. simpl. rewrite !saved_config. simpl.
    rewrite lookup_insert_eq, reset_alerted_funds. simpl.
    apply String.eqb_neq in Hne. by rewrite Hne.
  - rewrite mark_current by done.
    destruct (default (VList []) (config σ !! "alerted_funds"))
      as [| | | |s|l|d] eqn:Hv; simpl; try by rewrite Hv.
    + destruct (is_substring code s); simpl; by rewrite Hv.
    + destruct (existsb _ l) eqn:Hex; simpl; [by rewrite Hv|].
      rewrite saved_config. simpl. rewrite lookup_insert_eq. simpl.
      by rewrite existsb_app_one.
    + case_bool_decide; simpl; by rewrite Hv.
Qed.

Lemma mark_leaves_other_codes_witness :
  "161725" ≠ "501018"
  ∧ result (is_fund_alerted "2024-05-01" "501018" Written)
      (exec (mark_fund_alerted "2024-05-01" "161725" Written Written) (started ∅ None))
    = Return false.
Proof.
  assert ("161725" ≠ "501018") as Hne by discriminate.
  split; [exact Hne|].
  rewrite (mark_leaves_other_codes "2024-05-01" "161725" "501018"
             Written Written Written Written (started ∅ None) Hne).
  reflexivity.
Defined.

Lemma not_alert_key key :
  key ∉ alert_keys → key ≠ "last_alert_date" ∧ key ≠ "alerted_funds".
Proof. intros Hkey. split; intros ->; apply Hkey; decide_it. Qed.

Lemma check_reset_settings today w σ key :
  key ∉ alert_keys →
  let σ' := exec (check_reset_daily_alerts today w) σ in
  config σ' !! key = config σ !! key
  ∧ dingtalk_webhook σ' = dingtalk_webhook σ
  ∧ dingtalk_secret σ' = dingtalk_secret σ
  ∧ environ σ' = environ σ.
Proof.
  intros [Hd Ha]%not_alert_key. unfold exec. rewrite check_reset_eq.
  destruct (stale today (config σ)); simpl; [|done].
  rewrite saved_config. simpl. unfold reset.
  rewrite !lookup_insert_ne by done. by destruct w.
Qed.

(** X11: the daily bookkeeping leaves the settings alone.  Take a key other
    than [last_alert_date] and [alerted_funds].  [check_reset_daily_alerts]
    and [is_fund_alerted], which only assign, leave its entry, the two
    credentials and the environment as they were.  [mark_fund_alerted],
    which appends to the stored list, leaves the environment as it was, an
    absent entry absent, and an entry or credential that holds no list (a
    number, a boolean, [None] or a string) with its value. *)
Theorem alert_calls_keep_settings (today code key : string)
    (w w' : write_result) (σ : world) :
  key ∉ alert_keys →
  (∀ σ', (σ' = exec (check_reset_daily_alerts today w) σ
          ∨ σ' = exec (is_fund_alerted today code w) σ) →
     config σ' !! key = config σ !! key
     ∧ dingtalk_webhook σ' = dingtalk_webhook σ
     ∧ dingtalk_secret σ' = dingtalk_secret σ
     ∧ environ σ' = environ σ)
  ∧ (let σ' := exec (mark_fund_alerted today code w w') σ in
     environ σ' = environ σ
     ∧ (config σ !! key = None → config σ' !! key = None)
     ∧ (∀ v, config σ !! key = Some v → is_atom v = true →
          config σ' !! key = Some v)
     ∧ (is_atom (dingtalk_webhook σ) = true →
          dingtalk_webhook σ' = dingtalk_webhook σ)
     ∧ (is_atom (dingtalk_secret σ) = true →
          dingtalk_secret σ' = dingtalk_secret σ)).
Proof.
  intros Hkey.
  pose proof (check_reset_settings today w σ key Hkey) as Hreset.
  split.
  - intros σ' [->| ->]; [exact Hreset|]. by rewrite is_fund_alerted_exec.
  - assert (let σ' := exec (mark_fund_alerted today code w w') σ in
            config σ' !! key = config σ !! key
            ∧ dingtalk_webhook σ' = dingtalk_webhook σ
            ∧ dingtalk_secret σ' = dingtalk_secret σ
            ∧ environ σ' = environ σ) as (Hc & Hw & Hs & He).
    { cbv zeta.
      destruct (mark_fund_alerted_exec today code w w' σ) as [->|[v ->]]; [done|].
      destruct (not_alert_key key Hkey) as [_ Ha].
      rewrite saved_config. simpl. rewrite lookup_insert_ne by done.
      destruct Hreset as (? & ? & ? & ?). by destruct w'. }
    cbv zeta. rewrite Hc, Hw, Hs, He. by repeat split.
Qed.

Lemma alert_calls_keep_settings_witness :
  let σ := started {["PREMIUM_THRESHOLD" := "25.5"]} None in
  (("premium_threshold" ∉ alert_keys)
   ∧ config σ !! "premium_threshold" = Some (VFloat 25.5)
   ∧ is_atom (VFloat 25.5) = true)
  ∧ config (exec (mark_fund_alerted "2024-05-01" "161725" Written Written) σ)
      !! "premium_threshold" = Some (VFloat 25.5).
Proof.
  intros σ.
  assert ("premium_threshold" ∉ alert_keys) as Hkey by decide_it.
  split; [by repeat split|].
  exact (proj1 (proj2 (proj2 (proj2
    (alert_calls_keep_settings "2024-05-01" "161725" "premium_threshold"
       Written Written σ Hkey))))
    (VFloat 25.5) eq_refl eq_refl).
Defined.

(** X12: on a date other than the stored one neither method raises,
    whatever is stored under [alerted_funds]: [is_fund_alerted] returns
    false for every code, and [mark_fund_alerted code] returns and leaves
    the list holding [code] alone under the new date. *)
Theorem first_call_of_the_day (today code : string) (w w' : write_result)
    (σ : world) :
  config σ !! "last_alert_date" ≠ Some (VStr today) →
  result (is_fund_alerted today code w) σ = Return false
  ∧ result (mark_fund_alerted today code w w') σ = Return tt
  ∧ config (exec (mark_fund_alerted today code w w') σ) !! "alerted_funds"
    = Some (VList [VStr code])
  ∧ config (exec (mark_fund_alerted today code w w') σ) !! "last_alert_date"
    = Some (VStr today).
Proof.
  intros Hne.
  assert (stale today (config σ) = true) as Hs.
  { destruct (stale today (config σ)) eqn:Hs; [done|]. by apply stale_spec in Hs. }
  split.
  - unfold result. rewrite is_fund_alerted_eq. cbv zeta. unfold exec.
    rewrite check_reset_eq, Hs. simpl. rewrite saved_config. simpl.
    by rewrite reset_alerted_funds.
  - split; [unfold result; by rewrite mark_stale|].
    split; [|apply mark_advances_date].
    unfold exec. rewrite mark_stale by done. simpl.
    rewrite !saved_config. simpl. apply lookup_insert_eq.
Qed.

Lemma first_call_of_the_day_witness :
  let o : gmap string value :=
    {["last_alert_date" := VStr "2024-04-30"; "alerted_funds" := VInt 7]} in
  let σ := started ∅ (Some (Json (DocObject o))) in
  config σ !! "last_alert_date" ≠ Some (VStr "2024-05-01")
  ∧ config (exec (mark_fund_alerted "2024-05-01" "161725" Written Written) σ)
      !! "alerted_funds" = Some (VList [VStr "161725"]).
Proof.
  set (σ := started ∅ (Some (Json (DocObject
              {["last_alert_date" := VStr "2024-04-30";
                "alerted_funds" := VInt 7]})))).
  assert (config σ !! "last_alert_date" ≠ Some (VStr "2024-05-01")) as Hne
    by (vm_compute; discriminate).
  split; [exact Hne|].
  exact (proj1 (proj2 (proj2
    (first_call_of_the_day "2024-05-01" "161725" Written Written σ Hne)))).
Defined.

(** X13: on the stored date, a value under [alerted_funds] that is no list
    makes the methods fail without changing anything.  On a number, a
    boolean or [None] both raise TypeError; on a string that does not
    contain the code, [is_fund_alerted] returns false and
    [mark_fund_alerted] raises AttributeError.  In each case the state is
    as before: nothing is stored, written or printed. *)
Theorem alerted_funds_not_a_list (today code : string) (w w' : write_result)
    (σ : world) (v : value) :
  config σ !! "last_alert_date" = Some (VStr today) →
  config σ !! "alerted_funds" = Some v →
  (is_scalar v = true →
     is_fund_alerted today code w σ = (Raise TypeError, σ)
     ∧ mark_fund_alerted today code w w' σ = (Raise TypeError, σ))
  ∧ (∀ s, v = VStr s → is_substring code s = false →
       is_fund_alerted today code w σ = (Return false, σ)
       ∧ mark_fund_alerted today code w w' σ = (Raise AttributeError, σ)).
Proof.
  intros Hd%stale_spec Hv.
  rewrite is_fund_alerted_eq, mark_current by done. cbv zeta.
  rewrite check_reset_current by done. rewrite Hv. simpl.
  split.
  - intros Hsc. by destruct v.
  - intros s -> Hsub. simpl. by rewrite Hsub.
Qed.

Lemma alerted_funds_not_a_list_witness :
  let o : gmap string value :=
    {["last_alert_date" := VStr "2024-05-01"; "alerted_funds" := VNone]} in
  let σ := started ∅ (Some (Json (DocObject o))) in
  (config σ !! "last_alert_date" = Some (VStr "2024-05-01")
   ∧ config σ !! "alerted_funds" = Some VNone)
  ∧ mark_fund_alerted "2024-05-01" "161725" Written Written σ = (Raise TypeError, σ).
Proof.
  set (σ := started ∅ (Some (Json (DocObject
              {["last_alert_date" := VStr "2024-05-01";
                "alerted_funds" := VNone]})))).
  assert (config σ !! "last_alert_date" = Some (VStr "2024-05-01")) as Hd
    by reflexivity.
  assert (config σ !! "alerted_funds" = Some VNone) as Hv by reflexivity.
  split; [by split|].
  exact (proj2 (proj1 (alerted_funds_not_a_list "2024-05-01" "161725"
                         Written Written σ VNone Hd Hv) eq_refl)).
Defined.

(** ** Memory and file *)

Lemma saved_same_memory w w' σ : same_memory (saved w σ) (saved w' σ).
Proof. by destruct w, w'. Qed.

(** X14: a write that fails changes neither what a method returns nor what
    the instance holds in memory afterwards.  [save_config] itself never
    raises; when [open] fails it leaves the file as it was and prints one
    line. *)
Theorem write_failure_keeps_memory (key today code : string) (v : value)
    (w w' : write_result) (σ : world) :
  (result (save_config w) σ = Return tt
   ∧ file (exec (save_config OpenFails) σ) = file σ
   ∧ printed (save_config OpenFails) σ = [SaveFailed OSError])
  ∧ (result (set key v w) σ = Return tt
     ∧ same_memory (exec (set key v w) σ) (exec (set key v Written) σ))
  ∧ (result (check_reset_daily_alerts today w) σ
     = result (check_reset_daily_alerts today Written) σ
     ∧ same_memory (exec (check_reset_daily_alerts today w) σ)
         (exec (check_reset_daily_alerts today Written) σ))
  ∧ (result (mark_fund_alerted today code w w') σ
     = result (mark_fund_alerted today code Written Written) σ
     ∧ same_memory (exec (mark_fund_alerted today code w w') σ)
         (exec (mark_fund_alerted today code Written Written) σ)).
Proof.
  unfold result, exec, printed. split; [|split; [|split]].
  - rewrite !save_config_eq. simpl. by rewrite drop_app_length.
  - rewrite !set_eq. cbn [fst snd]. split; [done|]. apply saved_same_memory.
  - rewrite !check_reset_eq. destruct (stale today (config σ)); cbn [fst snd]; [|done].
    split; [done|]. apply saved_same_memory.
  - destruct (stale today (config σ)) eqn:Hs.
    + rewrite !mark_stale by done. cbn [fst snd]. split; [done|].
      rewrite !saved_config. by destruct w, w'.
    + rewrite !mark_current by done.
      destruct (default (VList []) (config σ !! "alerted_funds"))
        as [| | | |s|l|d]; try done.
      destruct (existsb _ l); [done|]. cbn [fst snd]. split; [done|].
      apply saved_same_memory.
Qed.

Lemma saved_in_sync σ : in_sync (saved Written σ).
Proof. reflexivity. Qed.

Lemma succeeds_Written w : succeeds w = true → w = Written.
Proof. by destruct w. Qed.

(** X8: memory and file stay in step.  When the file holds what a save of
    the present mapping writes, it still does after any sequence of calls
    other than [load_config] whose writes all succeed; and a save that
    succeeds brings the two in step from any state. *)
Theorem memory_and_file_in_step (py_float : string → option float)
    (cs : list call) (σ : world) :
  file σ = Some (Json (DocObject (del_keys sensitive_keys (config σ)))) →
  forallb writes_through cs = true →
  file (run py_float cs σ)
  = Some (Json (DocObject (del_keys sensitive_keys (config (run py_float cs σ))))).
Proof.
  change (in_sync σ → forallb writes_through cs = true →
          in_sync (run py_float cs σ)).
  revert σ. induction cs as [|c cs IH]; intros σ Hσ Hcs; simpl in *; [done|].
  apply andb_prop in Hcs as [Hc Hcs]. apply IH; [|done]. clear IH Hcs.
  destruct c as [w|w|key dflt|key v w|today w|today code w|today code w w'];
    simpl in *; try done.
  - apply succeeds_Written in Hc as ->. unfold exec. rewrite save_config_eq.
    apply saved_in_sync.
  - by rewrite get_exec.
  - apply succeeds_Written in Hc as ->. unfold exec. rewrite set_eq.
    apply saved_in_sync.
  - apply succeeds_Written in Hc as ->. unfold exec. rewrite check_reset_eq.
    destruct (stale today (config σ)); [apply saved_in_sync|done].
  - apply succeeds_Written in Hc as ->. rewrite is_fund_alerted_exec.
    unfold exec. rewrite check_reset_eq.
    destruct (stale today (config σ)); [apply saved_in_sync|done].
  - apply andb_prop in Hc as [->%succeeds_Written ->%succeeds_Written].
    destruct (mark_fund_alerted_exec today code Written Written σ) as [->|[v ->]].
    + unfold exec. rewrite check_reset_eq.
      destruct (stale today (config σ)); [apply saved_in_sync|done].
    + apply saved_in_sync.
Qed.

Lemma memory_and_file_in_step_witness :
  let cs := [CallSet "mode" (VStr "terminal") Written;
             CallMark "2024-05-01" "161725" Written Written;
             CallSet "dingtalk_secret" (VStr "SEC123") Written] in
  let σ := started ∅ None in
  (file σ = Some (Json (DocObject (del_keys sensitive_keys (config σ))))
   ∧ forallb writes_through cs = true)
  ∧ file (run sample_float cs σ)
    = Some (Json (DocObject
                   (del_keys sensitive_keys (config (run sample_float cs σ))))).
Proof.
  assert (file (started ∅ None)
          = Some (Json (DocObject
                          (del_keys sensitive_keys (config (started ∅ None))))))
    as Hσ by (vm_compute; reflexivity).
  split; [split; [exact Hσ|reflexivity]|].
  exact (memory_and_file_in_step sample_float
           [CallSet "mode" (VStr "terminal") Written;
            CallMark "2024-05-01" "161725" Written Written;
            CallSet "dingtalk_secret" (VStr "SEC123") Written]
           (started ∅ None) Hσ eq_refl).
Defined.

(** ** What a load depends on *)

Lemma del_if_present_pure key d : ∃ r, ∀ σ, del_if_present key d σ = (r, σ).
Proof.
  destruct d as [o|l|s|]; simpl.
  - by eexists.
  - destruct (existsb (element_is key) l); by eexists.
  - destruct (is_substring key s); by eexists.
  - by eexists.
Qed.

Lemma strip_loaded_pure keys d : ∃ r, ∀ σ, strip_loaded keys d σ = (r, σ).
Proof.
  revert d. induction keys as [|key keys IH]; intros d; simpl.
  - by eexists.
  - destruct (del_if_present_pure key d) as [[d'|e] Hd].
    + destruct (IH d') as [r Hr]. exists r. intros σ.
      unfold mbind, Py_bind. by rewrite Hd, Hr.
    + exists (Raise e). intros σ. unfold mbind, Py_bind. by rewrite Hd.
Qed.

Lemma unpack_pure e : ∃ r, ∀ σ, unpack e σ = (r, σ).
Proof.
  destruct e as [k v|s|]; simpl; [by eexists| |by eexists].
  destruct s as [|a [|b [|c s]]]; by eexists.
Qed.

(** What [update] makes of the mapping depends on the mapping alone. *)
Lemma update_from_pairs_config l σ σ' :
  config σ = config σ' →
  result (update_from_pairs l) σ = result (update_from_pairs l) σ'
  ∧ config (exec (update_from_pairs l) σ) = config (exec (update_from_pairs l) σ').
Proof.
  revert σ σ'. induction l as [|e l IH]; intros σ σ' Hc; simpl; [done|].
  destruct (unpack_pure e) as [[kv|x] He].
  - unfold result, exec, mbind, Py_bind in *. rewrite !He.
    unfold config_setitem, modify. simpl. apply IH. simpl. by rewrite Hc.
  - unfold result, exec, mbind, Py_bind. by rewrite !He.
Qed.

Lemma read_file_config c σ σ' :
  result (read_file c) σ = result (read_file c) σ'
  ∧ (result (read_file c) σ = Return tt →
     config (exec (read_file c) σ) = config (exec (read_file c) σ')).
Proof.
  unfold read_file. destruct c as [|d]; [done|].
  destruct (strip_loaded_pure sensitive_keys d) as [[d'|e] Hd].
  - unfold result, exec, mbind, Py_bind, json_load, mret, Py_ret. rewrite !Hd.
    unfold put_config, modify. cbn [fst snd].
    destruct d' as [o|l|s|]; simpl; try done.
    + split; [|intros _]; by apply (update_from_pairs_config l).
    + by destruct s.
  - unfold result, exec, mbind, Py_bind, json_load, mret, Py_ret. by rewrite !Hd.
Qed.

Lemma load_file_config_of_file w w' σ σ' :
  file σ = file σ' →
  config (exec (load_file w) σ) = config (exec (load_file w') σ').
Proof.
  intros Hf. destruct (file σ) as [c|] eqn:Hfσ.
  - rewrite (load_file_existing w σ c), (load_file_existing w' σ' c) by done.
    destruct (read_file_config c σ σ') as [Hr Hc]. rewrite <- Hr.
    destruct (result (read_file c) σ) as [[]|e]; [|done]. simpl. by apply Hc.
  - rewrite !load_file_absent by done. by rewrite !saved_config.
Qed.

Lemma load_config_credentials py_float w σ :
  dingtalk_webhook (exec (load_config py_float w) σ)
  = VStr (default "" (environ σ !! "DINGTALK_WEBHOOK"))
  ∧ dingtalk_secret (exec (load_config py_float w) σ)
    = VStr (default "" (environ σ !! "DINGTALK_SECRET"))
  ∧ environ (exec (load_config py_float w) σ) = environ σ.
Proof.
  unfold exec. rewrite load_config_eq. simpl.
  by rewrite !overridden_environ, load_file_environ.
Qed.

Lemma load_config_file_existing py_float w σ c :
  file σ = Some c → file (exec (load_config py_float w) σ) = Some c.
Proof.
  intros Hf. unfold exec at 1. rewrite load_config_eq. simpl.
  assert (∀ entry σ1, file (overridden py_float entry σ1) = file σ1) as Hov.
  { intros entry σ1. unfold overridden.
    destruct (environ σ1 !! entry.1) as [s|]; [|done].
    destruct (String.eqb s ""); [done|]. by destruct (py_float s). }
  rewrite !Hov, (load_file_existing w σ c Hf).
  by destruct (result (read_file c) σ).
Qed.

(** X15: what [load_config] leaves in memory depends on the file and the
    environment alone.  Two states with the same file and environment end
    with the same mapping and credentials, whatever the instance held
    before and whatever becomes of the write: entries and credentials set
    at run time that did not reach the file do not survive a load. *)
Theorem load_depends_on_file_and_environ (py_float : string → option float)
    (w w' : write_result) (σ σ' : world) :
  file σ = file σ' →
  environ σ = environ σ' →
  same_memory (exec (load_config py_float w) σ) (exec (load_config py_float w') σ').
Proof.
  intros Hf He. unfold same_memory.
  destruct (load_config_credentials py_float w σ) as (-> & -> & ->).
  destruct (load_config_credentials py_float w' σ') as (-> & -> & ->).
  rewrite !load_config_config, He.
  by rewrite (load_file_config_of_file w w' σ σ').
Qed.

Lemma load_depends_on_file_and_environ_witness :
  let σ := started ∅ None in
  let σ' := exec (set "dingtalk_webhook" (VStr "https://hook.example") OpenFails)
              (exec (set "mode" (VStr "terminal") OpenFails) σ) in
  (file σ' = file σ ∧ environ σ' = environ σ)
  ∧ config (exec (load_config sample_float Written) σ') !! "mode" = Some (VStr "ui").
Proof.
  intros σ σ'.
  assert (file σ' = file σ) as Hf by reflexivity.
  assert (environ σ' = environ σ) as He by reflexivity.
  split; [by split|].
  rewrite (proj1 (load_depends_on_file_and_environ sample_float Written Written
                    σ' σ Hf He)).
  reflexivity.
Defined.

(** X16: loading again changes nothing in memory: after [load_config] a
    second [load_config] leaves the same mapping and credentials, also when
    the first one had to create the file and whatever became of that write. *)
Theorem reload_keeps_memory (py_float : string → option float)
    (w w2 : write_result) (σ : world) :
  same_memory (exec (load_config py_float w2) (exec (load_config py_float w) σ))
    (exec (load_config py_float w) σ).
Proof.
  set (σ1 := exec (load_config py_float w) σ).
  destruct (load_config_credentials py_float w σ) as (Hw & Hs & He).
  destruct (load_config_credentials py_float w2 σ1) as (Hw2 & Hs2 & He2).
  fold σ1 in Hw, Hs, He.
  unfold same_memory. rewrite Hw2, Hs2, He2, Hw, Hs, He.
  repeat split; try done.
  rewrite load_config_config, He. subst σ1. rewrite load_config_config.
  f_equal.
  destruct (file σ) as [c|] eqn:Hf.
  - apply load_file_config_of_file.
    by rewrite (load_config_file_existing py_float w σ c).
  - rewrite (load_file_absent w σ) by done. rewrite saved_config. simpl.
    assert (file (exec (load_config py_float w) σ)
            = file (saved w (with_config default_config σ))) as Hfile.
    { unfold exec at 1. rewrite load_config_eq. simpl.
      assert (∀ entry σ1, file (overridden py_float entry σ1) = file σ1) as Hov.
      { intros entry σ1. unfold overridden.
        destruct (environ σ1 !! entry.1) as [s|]; [|done].
        destruct (String.eqb s ""); [done|]. by destruct (py_float s). }
      by rewrite !Hov, load_file_absent. }
    destruct w; simpl in Hfile.
    + rewrite (load_file_object _ _ _ Hfile). reflexivity.
    + rewrite Hf in Hfile. by rewrite load_file_absent, saved_config.
    + by rewrite load_file_unparsable.
Qed.

(** X17: a threshold taken from the environment reaches the file with the
    next save.  [load_config] keeps the override in memory only, but after
    it any [set] of another ordinary key whose write succeeds leaves a file
    that holds the float of the variable under the threshold's key. *)
Theorem env_override_is_saved_later (py_float : string → option float)
    (w : write_result) (σ : world) (env_key config_key s key : string)
    (f : float) (v : value) :
  (env_key, config_key) ∈ env_mapping →
  environ σ !! env_key = Some s →
  s ≠ "" →
  py_float s = Some f →
  key ∉ sensitive_keys →
  key ≠ config_key →
  ∃ o, file (exec (set key v Written) (exec (load_config py_float w) σ))
       = Some (Json (DocObject o))
       ∧ o !! config_key = Some (VFloat f)
       ∧ o !! key = Some v.
Proof.
  intros Hin Hs Hne Hf Hkey Hkc.
  destruct (not_sensitive key Hkey) as [Hw Hsec].
  unfold exec at 1. rewrite set_eq, Hw, Hsec. simpl.
  eexists. split; [done|].
  assert (config_key ∉ sensitive_keys) as Hck.
  { apply elem_of_cons in Hin as [Heq|Hin].
    - inversion Heq; subst. decide_it.
    - apply list_elem_of_singleton in Hin. inversion Hin; subst. decide_it. }
  rewrite !lookup_del_keys, !decide_False by done.
  rewrite lookup_insert_ne, lookup_insert_eq by done. split; [|done].
  rewrite load_config_config. apply lookup_union_Some_l.
  rewrite (env_layer_lookup py_float _ env_key) by done.
  unfold env_value. rewrite Hs. simpl.
  apply String.eqb_neq in Hne. by rewrite Hne, Hf.
Qed.

Lemma env_override_is_saved_later_witness :
  let env : gmap string string := {["DISCOUNT_THRESHOLD" := "35"]} in
  (("DISCOUNT_THRESHOLD", "discount_threshold") ∈ env_mapping
   ∧ env !! "DISCOUNT_THRESHOLD" = Some "35"
   ∧ sample_float "35" = Some 35%float)
  ∧ ∃ o, file (exec (set "mode" (VStr "terminal") Written)
                 (exec (load_config sample_float Written) (fresh env None)))
         = Some (Json (DocObject o))
         ∧ o !! "discount_threshold" = Some (VFloat 35)
         ∧ o !! "mode" = Some (VStr "terminal").
Proof.
  intros env.
  assert (("DISCOUNT_THRESHOLD", "discount_threshold") ∈ env_mapping) as Hin
    by decide_it.
  split; [by repeat split|].
  apply (env_override_is_saved_later sample_float Written (fresh env None)
           "DISCOUNT_THRESHOLD" "discount_threshold" "35" "mode" 35%float
           (VStr "terminal") Hin).
  - reflexivity.
  - discriminate.
  - reflexivity.
  - decide_it.
  - discriminate.
Defined.
